(** * Code-review assistant: history store and review request contract

    A shallow embedding of the parts of the code-review assistant that carry
    a contract, and the properties proved of them.

    Definitions:
    - [Js]        truthiness of the values the code tests;
    - [Sha256]    the digest that [crypto.createHash('sha256')] computes
                  (FIPS 180-4), rendered as lower-case hex;
    - [History]   the [history] table and the two routes of the server,
                  [POST /api/history] and [GET /api/history];
    - [Json]      JSON text as [JSON.parse] reads it, and response schemas;
    - [Gemini]    [mapModel], [reviewCode] and [chatWithCode], with the
                  backing service as a function from requests to outcomes
                  and the requests a call issues as its trace;
    - [Scenario]  sample data.

    Text is modelled by [string], read as the UTF-8 bytes of the JavaScript
    string: the bytes that [update] hashes and that SQLite stores and
    compares in a TEXT column. A JavaScript string can also hold a lone
    surrogate, which has no UTF-8 bytes: [update] and the binding of SQLite
    write U+FFFD in its place. The strings of [History] stand for text
    without one. [Json], where an escape can bring one in, carries it as
    the three bytes of its code point; [Js.isWellFormed] tells the strings
    without, and only those are passed on to the history route. The clock, the environment variable holding
    the credential and the backing service are arguments of the functions
    that consult them. *)

From Stdlib Require Import List String Ascii Bool ZArith NArith Lia Arith.
From Stdlib Require Import Sorting.Sorted Permutation.
Import ListNotations.

Set Warnings "-register-all".

Local Open Scope string_scope.

(* ================================================================== *)
(** * JavaScript truthiness of the values the code tests *)

Module Js.

(** [!s] on a string: only the empty string is falsy. *)
Definition truthy (s : string) : bool := negb (s =? "").

(** A value that is either [undefined] ([None]) or a string. *)
Definition truthy_opt (o : option string) : bool :=
  match o with
  | Some s => truthy s
  | None => false
  end.

(** [a || d] where [a] is [undefined] or a string and [d] a string. *)
Definition or_default (a : option string) (d : string) : string :=
  match a with
  | Some s => if truthy s then s else d
  | None => d
  end.

(** [s.isWellFormed()]: the string holds no lone surrogate. Among the bytes
    of code points, those of a surrogate (U+D800 to U+DFFF) are the byte
    0xED followed by a byte from 0xA0 up. *)
Fixpoint isWellFormed (s : string) : bool :=
  match s with
  | EmptyString => true
  | String c rest =>
      match rest with
      | String d _ =>
          if ((N_of_ascii c =? 0xED) && (0xA0 <=? N_of_ascii d))%N
          then false
          else isWellFormed rest
      | EmptyString => true
      end
  end.

Definition isWellFormed_opt (o : option string) : bool :=
  match o with
  | Some s => isWellFormed s
  | None => true
  end.

End Js.

(* ================================================================== *)
(** * SHA-256 (FIPS 180-4), as [crypto.createHash('sha256')] computes it *)

Module Sha256.

Local Open Scope list_scope.
Local Open Scope Z_scope.

Definition w32 (x : Z) : Z := x mod 2 ^ 32.

Definition add32 (x y : Z) : Z := w32 (x + y).

Definition rotr (n x : Z) : Z :=
  Z.lor (Z.shiftr x n) (w32 (Z.shiftl x (32 - n))).

Definition Ch (x y z : Z) : Z :=
  Z.lxor (Z.land x y) (Z.land (Z.lxor x 0xffffffff) z).

Definition Maj (x y z : Z) : Z :=
  Z.lxor (Z.lxor (Z.land x y) (Z.land x z)) (Z.land y z).

Definition Sigma0 (x : Z) : Z :=
  Z.lxor (Z.lxor (rotr 2 x) (rotr 13 x)) (rotr 22 x).

Definition Sigma1 (x : Z) : Z :=
  Z.lxor (Z.lxor (rotr 6 x) (rotr 11 x)) (rotr 25 x).

Definition sigma0 (x : Z) : Z :=
  Z.lxor (Z.lxor (rotr 7 x) (rotr 18 x)) (Z.shiftr x 3).

Definition sigma1 (x : Z) : Z :=
  Z.lxor (Z.lxor (rotr 17 x) (rotr 19 x)) (Z.shiftr x 10).

(** The constants are defined as the standard defines them: the first 32
    bits of the fractional parts of the cube roots ([K]) and of the square
    roots ([H0]) of the first primes. *)
Definition is_prime (n : nat) : bool :=
  forallb (fun d => negb (Nat.eqb (Nat.modulo n d) 0)) (seq 2 (n - 2)).

Definition primes64 : list Z :=
  map Z.of_nat (filter is_prime (seq 2 310)).

(** The integer cube root, found bit by bit from bit [n - 1] down. *)
Fixpoint cbrt_bits (n : nat) (x r : Z) : Z :=
  match n with
  | O => r
  | S k =>
      let c := r + 2 ^ Z.of_nat k in
      cbrt_bits k x (if c * c * c <=? x then c else r)
  end.

Definition frac32_cbrt (p : Z) : Z := w32 (cbrt_bits 36 (p * 2 ^ 96) 0).

Definition frac32_sqrt (p : Z) : Z := w32 (Z.sqrt (p * 2 ^ 64)).

Definition K : list Z := map frac32_cbrt primes64.

Definition H0 : list Z := map frac32_sqrt (firstn 8 primes64).

(** ** Padding and parsing into 32-bit words *)

Definition bytes_of_string (s : string) : list Z :=
  map (fun c => Z.of_N (N_of_ascii c)) (list_ascii_of_string s).

(** Big-endian bytes of [x], [n] of them. *)
Fixpoint be_bytes (n : nat) (x : Z) : list Z :=
  match n with
  | O => []
  | S k => Z.shiftr x (8 * Z.of_nat k) mod 256 :: be_bytes k x
  end.

(** The message, a [0x80] byte, zero bytes up to 56 modulo 64, and the bit
    length as a 64-bit big-endian integer. *)
Definition pad (msg : list Z) : list Z :=
  let len := Z.of_nat (List.length msg) in
  let zeros := Z.to_nat ((55 - len) mod 64) in
  msg ++ 0x80 :: repeat 0 zeros ++ be_bytes 8 (8 * len).

Fixpoint words_of_bytes (bs : list Z) : list Z :=
  match bs with
  | b0 :: b1 :: b2 :: b3 :: rest =>
      (Z.shiftl b0 24 + Z.shiftl b1 16 + Z.shiftl b2 8 + b3)
        :: words_of_bytes rest
  | _ => []
  end.

(** Cuts a list into blocks of [n] elements; [fuel] bounds the number of
    blocks and is given as the length of the list. *)
Fixpoint chunks {A} (fuel n : nat) (l : list A) : list (list A) :=
  match fuel, l with
  | _, [] => []
  | O, _ => []
  | S f, _ => firstn n l :: chunks f n (skipn n l)
  end.

(** ** Message schedule and compression *)

(** [rw] holds the schedule so far, newest word first. *)
Fixpoint extend (n : nat) (rw : list Z) : list Z :=
  match n with
  | O => rw
  | S k =>
      let w :=
        add32 (add32 (sigma1 (nth 1 rw 0)) (nth 6 rw 0))
              (add32 (sigma0 (nth 14 rw 0)) (nth 15 rw 0)) in
      extend k (w :: rw)
  end.

Definition schedule (block : list Z) : list Z :=
  rev (extend 48 (rev block)).

Record Regs := mkRegs
  { ra : Z; rb : Z; rc : Z; rd : Z; re : Z; rf : Z; rg : Z; rh : Z }.

Definition round (r : Regs) (kw : Z * Z) : Regs :=
  let (k, w) := kw in
  let t1 :=
    add32 (add32 (add32 (add32 (rh r) (Sigma1 (re r)))
                        (Ch (re r) (rf r) (rg r))) k) w in
  let t2 := add32 (Sigma0 (ra r)) (Maj (ra r) (rb r) (rc r)) in
  mkRegs (add32 t1 t2) (ra r) (rb r) (rc r)
         (add32 (rd r) t1) (re r) (rf r) (rg r).

Definition regs_of (h : list Z) : Regs :=
  mkRegs (nth 0 h 0) (nth 1 h 0) (nth 2 h 0) (nth 3 h 0)
         (nth 4 h 0) (nth 5 h 0) (nth 6 h 0) (nth 7 h 0).

Definition compress (h : list Z) (block : list Z) : list Z :=
  let r0 := regs_of h in
  let r := fold_left round (combine K (schedule block)) r0 in
  [ add32 (ra r0) (ra r); add32 (rb r0) (rb r);
    add32 (rc r0) (rc r); add32 (rd r0) (rd r);
    add32 (re r0) (re r); add32 (rf r0) (rf r);
    add32 (rg r0) (rg r); add32 (rh r0) (rh r) ].

Definition digest_words (msg : list Z) : list Z :=
  let ws := words_of_bytes (pad msg) in
  fold_left compress (chunks (List.length ws) 16 ws) H0.

(** ** Hex rendering, as [digest('hex')] *)

Definition hex_digit (d : Z) : ascii :=
  if d <? 10
  then ascii_of_N (Z.to_N (48 + d))
  else ascii_of_N (Z.to_N (87 + d)).

Fixpoint hex_of_word (n : nat) (x : Z) : string :=
  match n with
  | O => EmptyString
  | S k =>
      String (hex_digit (Z.shiftr x (4 * Z.of_nat k) mod 16))
             (hex_of_word k x)
  end.

Definition hex (s : string) : string :=
  String.concat "" (map (hex_of_word 8) (digest_words (bytes_of_string s))).

End Sha256.

(* ================================================================== *)
(** * The history store: the [history] table and its two routes *)

Module History.

Local Open Scope list_scope.

(** One row of the [history] table, columns as in [CREATE TABLE]. *)
Record Row := mkRow
  { id : Z;
    originalCode : string;
    improvedCode : string;
    timestamp : string;
    language : string;
    timeComplexity : string;
    spaceComplexity : string;
    cyclomaticComplexity : Z;
    hash : string }.

(** The table in rowid order, and the AUTOINCREMENT counter: the [seq] that
    [sqlite_sequence] keeps for the table, the largest rowid ever taken. *)
Record Store := mkStore
  { rows : list Row;
    seq : Z }.

Definition empty : Store := mkStore [] 0.

(** The JSON body of [POST /api/history]: an object whose fields, when
    present, hold text ([cyclomatic]: an integer); an absent field is
    [None]. *)
Module Req.

Record Complexity := mkComplexity
  { time : option string;
    space : option string;
    cyclomatic : option Z }.

Record Body := mkBody
  { originalCode : option string;
    improvedCode : option string;
    language : option string;
    complexity : option Complexity }.

End Req.

Inductive PostResponse :=
| Post200 (success inserted : bool)
| Post400 (error : string)
| Post500 (error : string).

Inductive GetResponse :=
| Get200 (history : list Row)
| Get500 (error : string).

(** [hash TEXT UNIQUE]: is there a row with this hash? *)
Definition has_hash (h : string) (st : Store) : bool :=
  existsb (fun r => hash r =? h) (rows st).

(** [INSERT OR IGNORE INTO history (...) VALUES (...)]: the statement takes
    the next rowid from the counter before it looks at the UNIQUE column,
    and the counter keeps that rowid whether or not a row is written. The
    row is skipped when its hash is already in the table; otherwise it is
    appended under the rowid taken. The first component is
    [info.changes]. *)
Definition insert_or_ignore (mk : Z -> Row) (h : string) (st : Store)
  : Z * Store :=
  let rowid := (seq st + 1)%Z in
  if has_hash h st
  then (0%Z, mkStore (rows st) rowid)
  else (1%Z, mkStore (rows st ++ [mk rowid]) rowid).

(** [complexity?.time || 'unknown'] and its siblings. *)
Definition complexity_time (c : option Req.Complexity) : string :=
  Js.or_default (match c with Some c => Req.time c | None => None end)
                "unknown".

Definition complexity_space (c : option Req.Complexity) : string :=
  Js.or_default (match c with Some c => Req.space c | None => None end)
                "unknown".

Definition complexity_cyclomatic (c : option Req.Complexity) : Z :=
  match c with
  | Some c => match Req.cyclomatic c with Some n => n | None => 0%Z end
  | None => 0%Z
  end.

(** The row that a call writes: the values bound to the [INSERT], under the
    rowid the table assigns. *)
Definition written_row (now : string) (body : Req.Body) (o i : string)
  (rowid : Z) : Row :=
  mkRow rowid o i now
        (Js.or_default (Req.language body) "unknown")
        (complexity_time (Req.complexity body))
        (complexity_space (Req.complexity body))
        (complexity_cyclomatic (Req.complexity body))
        (Sha256.hex (o ++ i)%string).

(** The handler of [POST /api/history]. [now] is the value of
    [new Date().toISOString()] at the time of the call. The [catch] branch
    (status 500) is taken only when the storage engine throws, which the
    table above never does. *)
Definition post_history (now : string) (body : Req.Body) (st : Store)
  : PostResponse * Store :=
  match Req.originalCode body, Req.improvedCode body with
  | Some o, Some i =>
      if negb (Js.truthy o) || negb (Js.truthy i)
      then (Post400 "Missing required fields", st)
      else
        let h := Sha256.hex (o ++ i)%string in
        let (changes, st') :=
          insert_or_ignore (written_row now body o i) h st in
        (Post200 true (0 <? changes)%Z, st')
  | _, _ => (Post400 "Missing required fields", st)
  end.

(** [ORDER BY timestamp DESC]: TEXT values compare bytewise; rows with equal
    timestamps are kept in rowid order. *)
Definition newer_or_equal (a b : Row) : bool :=
  (timestamp b <=? timestamp a)%string.

Fixpoint insert_desc (x : Row) (l : list Row) : list Row :=
  match l with
  | [] => [x]
  | y :: l' =>
      if newer_or_equal x y then x :: y :: l' else y :: insert_desc x l'
  end.

Definition order_by_timestamp_desc (l : list Row) : list Row :=
  fold_right insert_desc [] l.

(** [SELECT * FROM history ORDER BY timestamp DESC LIMIT 100]. *)
Definition select_history (st : Store) : list Row :=
  firstn 100 (order_by_timestamp_desc (rows st)).

(** The handler of [GET /api/history]. *)
Definition get_history (st : Store) : GetResponse :=
  Get200 (select_history st).

(** A sequence of [POST /api/history] calls, each with its clock reading. *)
Definition run_posts (calls : list (string * Req.Body)) (st : Store)
  : Store :=
  fold_left (fun s c => snd (post_history (fst c) (snd c) s)) calls st.

(** The invariant of the [UNIQUE] column, and rowids below the counter. *)
Definition unique_hashes (st : Store) : Prop :=
  NoDup (map hash (rows st)).

Definition ids_bounded (st : Store) : Prop :=
  Forall (fun r => (id r <= seq st)%Z) (rows st).

(** The order of the listing: [a] comes before [b]. *)
Definition desc (a b : Row) : Prop :=
  (timestamp b <=? timestamp a)%string = true.

End History.

(* ================================================================== *)
(** * JSON text, as [JSON.parse] reads it (ECMA-404) *)

Module Json.

Local Open Scope list_scope.

(** A parsed value. A number keeps its literal; an object keeps its members
    in document order, and a property read takes the last member of that
    name. *)
Inductive value :=
| JNull
| JBool (b : bool)
| JNumber (literal : string)
| JString (s : string)
| JArray (items : list value)
| JObject (members : list (string * value)).

Inductive token :=
| TLBrace | TRBrace | TLBracket | TRBracket | TColon | TComma
| TString (s : string)
| TNumber (literal : string)
| TTrue | TFalse | TNull.

(** ** Characters *)

Definition code (c : ascii) : N := N_of_ascii c.

Definition is_ws (c : ascii) : bool :=
  let n := code c in
  ((n =? 32) || (n =? 9) || (n =? 10) || (n =? 13))%N.

Definition is_digit (c : ascii) : bool :=
  let n := code c in ((48 <=? n) && (n <=? 57))%N.

Definition is_digit19 (c : ascii) : bool :=
  let n := code c in ((49 <=? n) && (n <=? 57))%N.

Definition is_hex (c : ascii) : bool :=
  let n := code c in
  (((48 <=? n) && (n <=? 57)) || ((65 <=? n) && (n <=? 70))
   || ((97 <=? n) && (n <=? 102)))%N.

Definition hex_val (c : ascii) : N :=
  let n := code c in
  (if n <=? 57 then n - 48 else if n <=? 70 then n - 55 else n - 87)%N.

Definition is_exp (c : ascii) : bool :=
  let n := code c in ((n =? 101) || (n =? 69))%N.

Definition is_sign (c : ascii) : bool :=
  let n := code c in ((n =? 43) || (n =? 45))%N.

(** ** String escapes *)

Definition byte (n : N) : ascii := ascii_of_N n.

(** UTF-8 bytes of a code point. The surrogate of an escape that has no
    partner takes the three bytes of its code point, so that the string,
    which is not well formed, differs from every string that is. *)
Definition utf8 (cp : N) : list ascii :=
  (if cp <? 0x80 then [byte cp]
   else if cp <? 0x800 then
     [byte (0xC0 + cp / 64); byte (0x80 + cp mod 64)]
   else if cp <? 0x10000 then
     [byte (0xE0 + cp / 4096); byte (0x80 + (cp / 64) mod 64);
      byte (0x80 + cp mod 64)]
   else
     [byte (0xF0 + cp / 262144); byte (0x80 + (cp / 4096) mod 64);
      byte (0x80 + (cp / 64) mod 64); byte (0x80 + cp mod 64)])%N.

Definition hex4 (a b c d : ascii) : N :=
  (hex_val a * 4096 + hex_val b * 256 + hex_val c * 16 + hex_val d)%N.

Definition is_high (u : N) : bool := ((0xD800 <=? u) && (u <=? 0xDBFF))%N.
Definition is_low (u : N) : bool := ((0xDC00 <=? u) && (u <=? 0xDFFF))%N.

Definition simple_escape (e : ascii) : ascii :=
  let n := code e in
  (if n =? 98 then byte 8          (* \b *)
   else if n =? 102 then byte 12   (* \f *)
   else if n =? 110 then byte 10   (* \n *)
   else if n =? 114 then byte 13   (* \r *)
   else if n =? 116 then byte 9    (* \t *)
   else e)%N.                      (* quote, backslash, slash *)

(** Decodes the body of a string literal whose escapes the lexer has
    already checked. *)
Fixpoint unescape (s : list ascii) : list ascii :=
  match s with
  | [] => []
  | c :: rest =>
      if (code c =? 92)%N then
        match rest with
        | [] => []
        | e :: rest1 =>
            if (code e =? 117)%N then
              match rest1 with
              | h1 :: h2 :: h3 :: h4 :: rest2 =>
                  let u := hex4 h1 h2 h3 h4 in
                  match rest2 with
                  | b :: e' :: l1 :: l2 :: l3 :: l4 :: rest3 =>
                      let lo := hex4 l1 l2 l3 l4 in
                      if is_high u && (code b =? 92)%N
                         && (code e' =? 117)%N && is_low lo
                      then utf8 (0x10000 + (u - 0xD800) * 1024
                                 + (lo - 0xDC00))%N
                             ++ unescape rest3
                      else utf8 u ++ unescape rest2
                  | _ => utf8 u ++ unescape rest2
                  end
              | _ => []
              end
            else simple_escape e :: unescape rest1
        end
      else c :: unescape rest
  end.

(** ** Lexer: one pass over the characters *)

Inductive NumState :=
| NMinus | NZero | NInt | NDot | NFrac | NExp | NExpSign | NExpDigits.

Definition num_accepting (n : NumState) : bool :=
  match n with
  | NZero | NInt | NFrac | NExpDigits => true
  | NMinus | NDot | NExp | NExpSign => false
  end.

Definition num_step (n : NumState) (c : ascii) : option NumState :=
  match n with
  | NMinus =>
      if (code c =? 48)%N then Some NZero
      else if is_digit19 c then Some NInt else None
  | NZero =>
      if (code c =? 46)%N then Some NDot
      else if is_exp c then Some NExp else None
  | NInt =>
      if is_digit c then Some NInt
      else if (code c =? 46)%N then Some NDot
      else if is_exp c then Some NExp else None
  | NDot => if is_digit c then Some NFrac else None
  | NFrac =>
      if is_digit c then Some NFrac
      else if is_exp c then Some NExp else None
  | NExp =>
      if is_sign c then Some NExpSign
      else if is_digit c then Some NExpDigits else None
  | NExpSign => if is_digit c then Some NExpDigits else None
  | NExpDigits => if is_digit c then Some NExpDigits else None
  end.

Inductive LexState :=
| LDefault
| LString (acc : list ascii)
| LEscape (acc : list ascii)
| LUnicode (remaining : nat) (acc : list ascii)
| LNumber (n : NumState) (acc : list ascii)
| LLiteral (expected : list ascii) (tok : token).

Definition string_of_rev (acc : list ascii) : string :=
  string_of_list_ascii (rev acc).

Definition default_step (c : ascii) : option (LexState * list token) :=
  let n := code c in
  if is_ws c then Some (LDefault, [])
  else if (n =? 123)%N then Some (LDefault, [TLBrace])
  else if (n =? 125)%N then Some (LDefault, [TRBrace])
  else if (n =? 91)%N then Some (LDefault, [TLBracket])
  else if (n =? 93)%N then Some (LDefault, [TRBracket])
  else if (n =? 58)%N then Some (LDefault, [TColon])
  else if (n =? 44)%N then Some (LDefault, [TComma])
  else if (n =? 34)%N then Some (LString [], [])
  else if (n =? 45)%N then Some (LNumber NMinus [c], [])
  else if (n =? 48)%N then Some (LNumber NZero [c], [])
  else if is_digit19 c then Some (LNumber NInt [c], [])
  else if (n =? 116)%N then
    Some (LLiteral (list_ascii_of_string "rue") TTrue, [])
  else if (n =? 102)%N then
    Some (LLiteral (list_ascii_of_string "alse") TFalse, [])
  else if (n =? 110)%N then
    Some (LLiteral (list_ascii_of_string "ull") TNull, [])
  else None.

Definition lex_step (st : LexState) (c : ascii)
  : option (LexState * list token) :=
  match st with
  | LDefault => default_step c
  | LString acc =>
      if (code c =? 34)%N then
        Some (LDefault,
              [TString (string_of_list_ascii (unescape (rev acc)))])
      else if (code c =? 92)%N then Some (LEscape (c :: acc), [])
      else if (code c <? 32)%N then None
      else Some (LString (c :: acc), [])
  | LEscape acc =>
      let n := code c in
      if ((n =? 34) || (n =? 92) || (n =? 47) || (n =? 98) || (n =? 102)
          || (n =? 110) || (n =? 114) || (n =? 116))%N
      then Some (LString (c :: acc), [])
      else if (n =? 117)%N then Some (LUnicode 4 (c :: acc), [])
      else None
  | LUnicode k acc =>
      if is_hex c then
        match k with
        | S (S k') => Some (LUnicode (S k') (c :: acc), [])
        | _ => Some (LString (c :: acc), [])
        end
      else None
  | LNumber n acc =>
      match num_step n c with
      | Some n' => Some (LNumber n' (c :: acc), [])
      | None =>
          if num_accepting n then
            match default_step c with
            | Some (st', toks) =>
                Some (st', TNumber (string_of_rev acc) :: toks)
            | None => None
            end
          else None
      end
  | LLiteral expected tok =>
      match expected with
      | e :: rest =>
          if Ascii.eqb c e then
            match rest with
            | [] => Some (LDefault, [tok])
            | _ => Some (LLiteral rest tok, [])
            end
          else None
      | [] => None
      end
  end.

Definition lex_end (st : LexState) : option (list token) :=
  match st with
  | LDefault => Some []
  | LNumber n acc =>
      if num_accepting n then Some [TNumber (string_of_rev acc)] else None
  | _ => None
  end.

Fixpoint lex (st : LexState) (s : list ascii) : option (list token) :=
  match s with
  | [] => lex_end st
  | c :: rest =>
      match lex_step st c with
      | Some (st', toks) =>
          match lex st' rest with
          | Some more => Some (toks ++ more)
          | None => None
          end
      | None => None
      end
  end.

(** ** Parser: one pass over the tokens, with the open containers on a
    stack *)

Inductive Frame :=
| FArray (items : list value)
| FObject (members : list (string * value)) (key : option string).

Inductive Expect :=
| EValue          (* a value must follow *)
| EValueOrClose   (* just after an opening bracket *)
| EKeyOrClose     (* just after an opening brace *)
| EKey            (* after a comma inside an object *)
| EColon          (* after a member name *)
| ECommaOrClose   (* after a value inside a container *)
| EEnd (v : value). (* the top-level value is complete *)

Definition deliver (v : value) (stack : list Frame)
  : option (Expect * list Frame) :=
  match stack with
  | [] => Some (EEnd v, [])
  | FArray items :: stk => Some (ECommaOrClose, FArray (v :: items) :: stk)
  | FObject ms (Some k) :: stk =>
      Some (ECommaOrClose, FObject ((k, v) :: ms) None :: stk)
  | FObject _ None :: _ => None
  end.

Definition scalar (t : token) : option value :=
  match t with
  | TString s => Some (JString s)
  | TNumber n => Some (JNumber n)
  | TTrue => Some (JBool true)
  | TFalse => Some (JBool false)
  | TNull => Some JNull
  | _ => None
  end.

Definition close_array (stack : list Frame)
  : option (Expect * list Frame) :=
  match stack with
  | FArray items :: stk => deliver (JArray (rev items)) stk
  | _ => None
  end.

Definition close_object (stack : list Frame)
  : option (Expect * list Frame) :=
  match stack with
  | FObject ms None :: stk => deliver (JObject (rev ms)) stk
  | _ => None
  end.

Definition start_value (t : token) (stack : list Frame)
  : option (Expect * list Frame) :=
  match t with
  | TLBracket => Some (EValueOrClose, FArray [] :: stack)
  | TLBrace => Some (EKeyOrClose, FObject [] None :: stack)
  | _ =>
      match scalar t with
      | Some v => deliver v stack
      | None => None
      end
  end.

Definition member_name (t : token) (stack : list Frame)
  : option (Expect * list Frame) :=
  match t, stack with
  | TString k, FObject ms None :: stk =>
      Some (EColon, FObject ms (Some k) :: stk)
  | _, _ => None
  end.

Definition parse_step (e : Expect) (stack : list Frame) (t : token)
  : option (Expect * list Frame) :=
  match e with
  | EValue => start_value t stack
  | EValueOrClose =>
      match t with
      | TRBracket => close_array stack
      | _ => start_value t stack
      end
  | EKeyOrClose =>
      match t with
      | TRBrace => close_object stack
      | _ => member_name t stack
      end
  | EKey => member_name t stack
  | EColon =>
      match t with
      | TColon => Some (EValue, stack)
      | _ => None
      end
  | ECommaOrClose =>
      match t, stack with
      | TComma, FArray _ :: _ => Some (EValue, stack)
      | TComma, FObject _ _ :: _ => Some (EKey, stack)
      | TRBracket, _ => close_array stack
      | TRBrace, _ => close_object stack
      | _, _ => None
      end
  | EEnd _ => None
  end.

Fixpoint parse_tokens (e : Expect) (stack : list Frame) (ts : list token)
  : option value :=
  match ts with
  | [] =>
      match e, stack with
      | EEnd v, [] => Some v
      | _, _ => None
      end
  | t :: rest =>
      match parse_step e stack t with
      | Some (e', stack') => parse_tokens e' stack' rest
      | None => None
      end
  end.

(** [JSON.parse(text)]; [None] stands for the [SyntaxError] it throws. *)
Definition parse (text : string) : option value :=
  match lex LDefault (list_ascii_of_string text) with
  | Some ts => parse_tokens EValue [] ts
  | None => None
  end.

(** The property [k] of a parsed value ([v.k]); [None] is [undefined]. *)
Fixpoint lookup (k : string) (ms : list (string * value)) : option value :=
  match ms with
  | [] => None
  | (k', v) :: rest =>
      match lookup k rest with
      | Some v' => Some v'
      | None => if (k' =? k)%string then Some v else None
      end
  end.

Definition get (k : string) (v : value) : option value :=
  match v with
  | JObject ms => lookup k ms
  | _ => None
  end.

(** No text that the value holds has a lone surrogate. *)
Fixpoint well_formed (v : value) : bool :=
  match v with
  | JString s => Js.isWellFormed s
  | JArray items => forallb well_formed items
  | JObject ms => forallb (fun m : string * value =>
                 let (_, x) := m in well_formed x) ms
  | _ => true
  end.

(** ** Response schemas, as the [responseSchema] option describes them *)

Inductive Schema :=
| SString
| SNumber
| SArray (items : Schema)
| SObject (properties : list (string * Schema)) (required : list string).

Definition mem (k : string) (l : list string) : bool :=
  existsb (String.eqb k) l.

Fixpoint conforms (s : Schema) (v : value) : bool :=
  match s, v with
  | SString, JString _ => true
  | SNumber, JNumber _ => true
  | SArray items, JArray l => forallb (conforms items) l
  | SObject props required, JObject ms =>
      forallb (fun k => match lookup k ms with Some _ => true
                                          | None => false end) required
      && forallb (fun p => match lookup (fst p) ms with
                           | Some x => conforms (snd p) x
                           | None => true
                           end) props
  | _, _ => false
  end.

End Json.


(* ================================================================== *)
(** * The review request builder and the conversational follow-up *)

Module Gemini.

Local Open Scope list_scope.
Local Open Scope string_scope.

(** ** Option sets *)

Inductive ReviewMode := student | interview | industry.
Inductive ImplementationStyle := default | functional | recursive | flat.
Inductive VerbosityLevel := concise | normal | detailed.
Inductive ToneStyle := professional | casual | encouraging.

(** The string each option is at run time. *)
Definition ReviewMode_text (m : ReviewMode) : string :=
  match m with
  | student => "student"
  | interview => "interview"
  | industry => "industry"
  end.

Definition ImplementationStyle_text (s : ImplementationStyle) : string :=
  match s with
  | default => "default"
  | functional => "functional"
  | recursive => "recursive"
  | flat => "flat"
  end.

Definition VerbosityLevel_text (v : VerbosityLevel) : string :=
  match v with
  | concise => "concise"
  | normal => "normal"
  | detailed => "detailed"
  end.

Definition ToneStyle_text (t : ToneStyle) : string :=
  match t with
  | professional => "professional"
  | casual => "casual"
  | encouraging => "encouraging"
  end.

(** [model] is a [ModelType] for the type checker and a plain string at run
    time; the [default] branch of [mapModel] sees every other string. *)
Definition mapModel (model : string) : string :=
  if model =? "claude-4" then "gemini-3-flash-preview"
  else if model =? "gpt-5" then "gemini-3.1-pro-preview"
  else if model =? "microsoft-copilot" then "gemini-3.1-pro-preview"
  else if model =? "github-copilot" then "gemini-3.1-pro-preview"
  else model.

(** The same mapping written as the table the specification speaks of:
    logical identifier, concrete model name. *)
Definition model_table : list (string * string) :=
  [ ("claude-4", "gemini-3-flash-preview");
    ("gpt-5", "gemini-3.1-pro-preview");
    ("microsoft-copilot", "gemini-3.1-pro-preview");
    ("github-copilot", "gemini-3.1-pro-preview") ].

Fixpoint table_lookup (k : string) (table : list (string * string))
  : option string :=
  match table with
  | [] => None
  | (k', v) :: rest => if k' =? k then Some v else table_lookup k rest
  end.

(** ** Strings *)

Definition nl : string := String (ascii_of_nat 10) "".

Definition lines (l : list string) : string := String.concat nl l.

Definition upper (c : ascii) : ascii :=
  let n := N_of_ascii c in
  if ((97 <=? n) && (n <=? 122))%N then ascii_of_N (n - 32) else c.

Fixpoint toUpperCase (s : string) : string :=
  match s with
  | EmptyString => EmptyString
  | String c s' => String (upper c) (toUpperCase s')
  end.

(** [s.includes(sub)]. *)
Fixpoint includes (s sub : string) : bool :=
  if String.prefix sub s then true
  else
    match s with
    | EmptyString => false
    | String _ s' => includes s' sub
    end.

(** [m?.includes(sub)] in a condition: [undefined] is falsy. *)
Definition includes_opt (m : option string) (sub : string) : bool :=
  match m with
  | Some s => includes s sub
  | None => false
  end.

(** A possibly-undefined string inside a template literal. *)
Definition interp (o : option string) : string :=
  match o with
  | Some s => s
  | None => "undefined"
  end.

(** A parameter with a default value. *)
Definition or_else {A} (o : option A) (d : A) : A :=
  match o with
  | Some a => a
  | None => d
  end.

(** ** The prompt of [reviewCode] *)

Definition modeInstructions (m : ReviewMode) : string :=
  match m with
  | student => "Focus on beginner-friendly explanations, explaining basic concepts, and simplifying logic for a 1st-year student."
  | interview => "Focus on FAANG standards, competitive coding style, optimal time/space complexity, and edge case handling."
  | industry => "Focus on production-ready code, clean architecture, scalability, robust error handling, and industry best practices."
  end.

Definition styleInstructions (s : ImplementationStyle) : string :=
  match s with
  | default => "Use the most idiomatic and effective implementation style for the target language."
  | functional => "Prioritize a functional programming style (e.g., pure functions, immutability, higher-order functions like map/filter/reduce)."
  | recursive => "Prioritize using recursion for any repetitive or iterative logic where appropriate."
  | flat => "Write the code in a flat, procedural style WITHOUT using any functions or recursions. Use simple loops and global/local variables directly in the main execution flow."
  end.

Definition verbosityInstructions (v : VerbosityLevel) : string :=
  match v with
  | concise => "Keep explanations short and to the point."
  | detailed => "Provide in-depth explanations, covering all edge cases and reasoning."
  | normal => "Provide standard, balanced explanations."
  end.

Definition toneInstructions (t : ToneStyle) : string :=
  match t with
  | casual => "Use a friendly, conversational tone."
  | encouraging => "Be highly supportive, positive, and encouraging."
  | professional => "Maintain a formal, objective, and professional tone."
  end.

Definition isAuto (language : string) : bool := language =? "auto".

(** [targetLanguage && targetLanguage !== "none" &&
    targetLanguage !== language], as the conditions that test it see it. *)
Definition isConversion (targetLanguage : option string) (language : string)
  : bool :=
  match targetLanguage with
  | Some t => Js.truthy t && negb (t =? "none") && negb (t =? language)
  | None => false
  end.

Definition conversionDirective (targetLanguage : option string)
  (language : string) : string :=
  if isConversion targetLanguage language
  then "TARGET LANGUAGE FOR CONVERSION: " ++ interp targetLanguage
       ++ ". You MUST convert the code to " ++ interp targetLanguage
       ++ " while optimizing it."
  else "".

(** [targetLanguage && targetLanguage !== "none" ? targetLanguage :
    language], the label of the code fences. *)
Definition fenceLanguage (targetLanguage : option string)
  (language : string) : string :=
  match targetLanguage with
  | Some t => if Js.truthy t && negb (t =? "none") then t else language
  | None => language
  end.

(** The lines of the template literal passed as [contents], with the
    interpolated values in place. *)
Definition review_prompt_lines (code language : string) (mode : ReviewMode)
  (targetLanguage : option string) (style : ImplementationStyle)
  (errorLog houseStyle : string) (verbosity : VerbosityLevel)
  (tone : ToneStyle) : list string :=
    [ "You are a dual-stage AI Refinement Agent. Your goal is to process a code snippet AND its corresponding error/bug log to produce exactly two distinct sections: CORRECTION and OPTIMIZATION.";
      "";
      "      Review the following code. ";
      "      " ++ (if isAuto language then "First, detect the programming language of the code." else "Source Language: " ++ language);
      "      " ++ conversionDirective targetLanguage language;
      "      Mode: " ++ toUpperCase (ReviewMode_text mode) ++ " - " ++ modeInstructions mode;
      "      Implementation Style: " ++ toUpperCase (ImplementationStyle_text style) ++ " - " ++ styleInstructions style;
      "      Verbosity: " ++ toUpperCase (VerbosityLevel_text verbosity) ++ " - " ++ verbosityInstructions verbosity;
      "      Tone: " ++ toUpperCase (ToneStyle_text tone) ++ " - " ++ toneInstructions tone;
      "      ";
      "      " ++ (if Js.truthy errorLog then "ERROR/BUG LOG:" ++ nl ++ errorLog ++ nl else "No error log provided. Please infer potential errors from the code itself.");
      "      " ++ (if Js.truthy houseStyle then "HOUSE STYLE GUIDELINES:" ++ nl ++ houseStyle ++ nl else "No specific house style provided. Follow general industry best practices.");
      "      ";
      "      Tasks:";
      "      1. " ++ (if isAuto language then "Identify the source programming language." else "");
      "      2. Identify bugs, performance issues, best-practice violations, and security vulnerabilities (e.g., SQL injection, XSS, hardcoded secrets) in the original code.";
      "      3. Provide the best overall optimized/corrected code in the `optimizedCode` field. Ensure it strictly adheres to the HOUSE STYLE GUIDELINES if provided.";
      "      4. In the `explanation` field, you MUST follow this exact structure using multi-line Markdown:";
      "         ";
      "         ### 🔍 Phase 1: Mandatory Correction (P0)";
      "         **Root Cause Analysis:**";
      "         [Provide a detailed, multi-line explanation of why the code failed or is suboptimal.]";
      "         ";
      "         **### 🛠️ CORRECTED CODE**";
      "         ```" ++ (fenceLanguage targetLanguage language);
      "         [Provide the hotfix code here]";
      "         ```";
      "         ";
      "         ### 🚀 Phase 2: Triple Optimization (P1)";
      "         ";
      "         #### Option 1: Clean/Readable";
      "         [Explain the approach]";
      "         ```" ++ (fenceLanguage targetLanguage language);
      "         [Code for Option 1]";
      "         ```";
      "         ";
      "         #### Option 2: High Performance";
      "         [Explain the approach]";
      "         ```" ++ (fenceLanguage targetLanguage language);
      "         [Code for Option 2]";
      "         ```";
      "         ";
      "         #### Option 3: Modern Agentic";
      "         [Explain the approach]";
      "         ```" ++ (fenceLanguage targetLanguage language);
      "         [Code for Option 3]";
      "         ```";
      "         ";
      "      5. Generate professional documentation (Docstrings/README format) for the " ++ (if isConversion targetLanguage language then interp targetLanguage else "optimized") ++ " code in the `documentation` field. **Use structured multi-line Markdown with clear sections (e.g., Overview, Parameters, Returns, Examples).**";
      "      6. Analyze Time, Space, and Cyclomatic complexity of the " ++ (if isConversion targetLanguage language then "converted" else "optimized") ++ " code.";
      "      7. Provide detailed scores (0-10) for Quality, Readability, Optimization, Security, Technical Debt (10 = no debt, 0 = high debt), and Style Consistency.";
      "";
      "      Code to review:";
      "      ```";
      "      " ++ code;
      "      ```" ].

Definition review_prompt (code language : string) (mode : ReviewMode)
  (targetLanguage : option string) (style : ImplementationStyle)
  (errorLog houseStyle : string) (verbosity : VerbosityLevel)
  (tone : ToneStyle) : string :=
  lines (review_prompt_lines code language mode targetLanguage style
                             errorLog houseStyle verbosity tone).

(** ** The declared output schema *)

Definition issueSchema : Json.Schema :=
  Json.SObject
    [ ("type", Json.SString); ("severity", Json.SString);
      ("line", Json.SNumber); ("description", Json.SString);
      ("suggestion", Json.SString) ]
    [ "type"; "severity"; "description"; "suggestion" ].

Definition detailedScoresSchema : Json.Schema :=
  Json.SObject
    [ ("quality", Json.SNumber); ("readability", Json.SNumber);
      ("optimization", Json.SNumber); ("security", Json.SNumber);
      ("technicalDebt", Json.SNumber); ("styleConsistency", Json.SNumber) ]
    [ "quality"; "readability"; "optimization"; "security";
      "technicalDebt"; "styleConsistency" ].

Definition complexitySchema : Json.Schema :=
  Json.SObject
    [ ("time", Json.SString); ("space", Json.SString);
      ("cyclomatic", Json.SNumber) ]
    [ "time"; "space"; "cyclomatic" ].

Definition responseSchema : Json.Schema :=
  Json.SObject
    [ ("detectedLanguage", Json.SString);
      ("issues", Json.SArray issueSchema);
      ("optimizedCode", Json.SString);
      ("explanation", Json.SString);
      ("documentation", Json.SString);
      ("overallScore", Json.SNumber);
      ("detailedScores", detailedScoresSchema);
      ("complexity", complexitySchema) ]
    [ "detectedLanguage"; "issues"; "optimizedCode"; "explanation";
      "documentation"; "overallScore"; "detailedScores"; "complexity" ].

(** ** The backing service *)

Inductive ThinkingLevel := LOW.

Record GenerateContentConfig := mkConfig
  { responseMimeType : string;
    thinkingLevel : ThinkingLevel;
    responseSchemaOf : Json.Schema }.

Record GenerateContentParameters := mkGenerate
  { model : string;
    contents : string;
    config : GenerateContentConfig }.

(** The roles ["user"] and ["model"]. *)
Inductive Role := user | model_role.

(** One turn of the transcript: [{ role, parts: [{ text }] }]. *)
Record Content := mkContent
  { role : Role;
    parts : list string }.

Record ChatParameters := mkChat
  { chat_model : string;
    systemInstruction : string;
    history : list Content }.

(** A network call to the service. *)
Inductive Request :=
| GenerateContent (p : GenerateContentParameters)
| SendMessage (chat : ChatParameters) (message : string).

(** What a call comes back with: a response, whose [text] may be
    [undefined], or a thrown error, whose [message] may be [undefined]. *)
Inductive Outcome :=
| Responded (text : option string)
| Failed (message : option string).

Definition Service := Request -> Outcome.

(** How a call of this module ends: a value, or a thrown [Error] with its
    message. *)
Inductive Completion (A : Type) :=
| Return (a : A)
| Throw (message : option string).

Arguments Return {A} a.
Arguments Throw {A} message.

(** ** The messages of the errors, under the names of the taxonomy *)

Definition MissingCredentialsError : string :=
  "GEMINI_API_KEY is not set".

Definition EmptyResponseError : string :=
  "The AI model returned an empty response. Please try again.".

Definition MalformedResponseError : string :=
  "Failed to process the AI's response. The generated content was not in the expected format.".

Definition AuthError : string :=
  "Invalid API key configuration. Please check your environment variables.".

Definition SafetyBlockedError : string :=
  "The code review was blocked by safety filters. Please ensure your code follows safety guidelines.".

Definition RateLimitError : string :=
  "API quota exceeded or too many requests. Please wait a moment before trying again.".

Definition UpstreamError_default : string :=
  "An error occurred while communicating with the AI. Please check your connection and try again.".

Definition chat_fallback : string :=
  "I'm sorry, I couldn't generate a response.".

(** The [catch (apiError)] block of [reviewCode]: the message of the error
    it throws for the error it caught. *)
Definition classify (message : option string) : string :=
  if includes_opt message "API key" then AuthError
  else if includes_opt message "safety" then SafetyBlockedError
  else if includes_opt message "quota" || includes_opt message "429"
  then RateLimitError
  else Js.or_default message UpstreamError_default.

(** ** [reviewCode] *)

Definition review_config : GenerateContentConfig :=
  mkConfig "application/json" LOW responseSchema.

Definition review_request (code language : string)
  (mode : option ReviewMode) (targetLanguage : option string)
  (style : option ImplementationStyle) (model : option string)
  (errorLog houseStyle : option string)
  (verbosity : option VerbosityLevel) (tone : option ToneStyle)
  : Request :=
  GenerateContent
    (mkGenerate
       (mapModel (or_else model "gemini-3-flash-preview"))
       (review_prompt code language (or_else mode industry) targetLanguage
          (or_else style default) (or_else errorLog "")
          (or_else houseStyle "") (or_else verbosity normal)
          (or_else tone professional))
       review_config).

(** The body of the [try] block once the service has answered. *)
Definition review_response (o : Outcome) : Completion Json.value :=
  match o with
  | Failed m => Throw m
  | Responded text =>
      match text with
      | Some t =>
          if negb (Js.truthy t) then Throw (Some EmptyResponseError)
          else
            match Json.parse t with
            | Some v => Return v
            | None => Throw (Some MalformedResponseError)
            end
      | None => Throw (Some EmptyResponseError)
      end
  end.

(** [reviewCode]: the network calls it issued, in order, and how it ended.
    [apiKey] is [process.env.GEMINI_API_KEY]; an omitted argument is
    [None]. *)
Definition reviewCode (apiKey : option string) (service : Service)
  (code language : string)
  (mode : option ReviewMode) (targetLanguage : option string)
  (style : option ImplementationStyle) (model : option string)
  (errorLog houseStyle : option string)
  (verbosity : option VerbosityLevel) (tone : option ToneStyle)
  : list Request * Completion Json.value :=
  if negb (Js.truthy_opt apiKey)
  then ([], Throw (Some MissingCredentialsError))
  else
    let request :=
      review_request code language mode targetLanguage style model
                     errorLog houseStyle verbosity tone in
    ([request],
     match review_response (service request) with
     | Return v => Return v
     | Throw m => Throw (Some (classify m))
     end).

(** ** [chatWithCode] *)

Definition chat_instruction (code errorLog : string) : string :=
  lines
    [ "You are a helpful AI coding assistant. Your goal is to answer the user's questions about the provided code snippet.";
      "      ";
      "      Provide clear, concise, and accurate answers. If the user asks for explanations, explain the logic step-by-step. If they ask for improvements, suggest them.";
      "      ";
      "      " ++ (if Js.truthy errorLog then "The user also provided the following ERROR/BUG LOG for context:" ++ nl ++ errorLog ++ nl else "");
      "      ";
      "      CURRENT CODE IN EDITOR:";
      "      ```";
      "      " ++ code;
      "      ```" ].

Definition chat_request (code question : string)
  (history : option (list Content)) (model : option string)
  (errorLog : option string) : Request :=
  SendMessage
    (mkChat (mapModel (or_else model "gemini-3-flash-preview"))
            (chat_instruction code (or_else errorLog ""))
            (or_else history []))
    question.

Definition chatWithCode (apiKey : option string) (service : Service)
  (code question : string)
  (history : option (list Content)) (model : option string)
  (errorLog : option string)
  : list Request * Completion string :=
  if negb (Js.truthy_opt apiKey)
  then ([], Throw (Some MissingCredentialsError))
  else
    let request := chat_request code question history model errorLog in
    ([request],
     match service request with
     | Responded text => Return (Js.or_default text chat_fallback)
     | Failed m => Throw m
     end).

End Gemini.

(* ================================================================== *)
(** * Sample data of the concrete scenarios *)

Module Scenario.

Local Open Scope string_scope.

Definition t0 : string := "2026-03-01T10:00:00.000Z".
Definition t1 : string := "2026-03-01T10:00:01.000Z".

(** A request body with the two code fields only. *)
Definition pair (o i : string) : History.Req.Body :=
  History.Req.mkBody (Some o) (Some i) None None.

(** The same pair with a language and a complexity triple. *)
Definition pair_with (o i lang : string) (c : History.Req.Complexity)
  : History.Req.Body :=
  History.Req.mkBody (Some o) (Some i) (Some lang) (Some c).

Definition linear : History.Req.Complexity :=
  History.Req.mkComplexity (Some "O(n)") (Some "O(1)") (Some 2%Z).

(** JSON text is put together from its pieces. *)
Definition dq : string := String (ascii_of_nat 34) "".

Definition quoted (s : string) : string := dq ++ s ++ dq.

Definition member (k v : string) : string := quoted k ++ ":" ++ v.

Definition scores_text : string :=
  "{" ++ member "quality" "8" ++ "," ++ member "readability" "7" ++ ","
  ++ member "optimization" "6" ++ "," ++ member "security" "9" ++ ","
  ++ member "technicalDebt" "8" ++ "," ++ member "styleConsistency" "7"
  ++ "}".

Definition complexity_text : string :=
  "{" ++ member "time" (quoted "O(n)") ++ ","
  ++ member "space" (quoted "O(1)") ++ "," ++ member "cyclomatic" "2"
  ++ "}".

(** A payload with every field of the schema but [complexity]. *)
Definition payload_without_complexity : string :=
  "{" ++ member "detectedLanguage" (quoted "python") ++ ","
  ++ member "issues" "[]" ++ ","
  ++ member "optimizedCode" (quoted "print(1)") ++ ","
  ++ member "explanation" (quoted "Nothing to fix.") ++ ","
  ++ member "documentation" (quoted "Prints 1.") ++ ","
  ++ member "overallScore" "8" ++ ","
  ++ member "detailedScores" scores_text ++ "}".

(** The same payload with the [complexity] object. *)
Definition payload_complete : string :=
  "{" ++ member "detectedLanguage" (quoted "python") ++ ","
  ++ member "issues" "[]" ++ ","
  ++ member "optimizedCode" (quoted "print(1)") ++ ","
  ++ member "explanation" (quoted "Nothing to fix.") ++ ","
  ++ member "documentation" (quoted "Prints 1.") ++ ","
  ++ member "overallScore" "8" ++ ","
  ++ member "detailedScores" scores_text ++ ","
  ++ member "complexity" complexity_text ++ "}".

Definition scores_value : Json.value :=
  Json.JObject
    [ ("quality", Json.JNumber "8"); ("readability", Json.JNumber "7");
      ("optimization", Json.JNumber "6"); ("security", Json.JNumber "9");
      ("technicalDebt", Json.JNumber "8");
      ("styleConsistency", Json.JNumber "7") ].

Definition value_without_complexity : Json.value :=
  Json.JObject
    [ ("detectedLanguage", Json.JString "python");
      ("issues", Json.JArray []);
      ("optimizedCode", Json.JString "print(1)");
      ("explanation", Json.JString "Nothing to fix.");
      ("documentation", Json.JString "Prints 1.");
      ("overallScore", Json.JNumber "8");
      ("detailedScores", scores_value) ].

(** A service that answers every call with the same text. *)
Definition answering (text : option string) : Gemini.Service :=
  fun _ => Gemini.Responded text.

(** A service that fails every call with the same error message. *)
Definition failing (message : option string) : Gemini.Service :=
  fun _ => Gemini.Failed message.

End Scenario.

(* ================================================================== *)
(** * Whitespace, as [String.prototype.trim] sees it *)

Module Text.

Local Open Scope list_scope.

Definition code (c : ascii) : N := N_of_ascii c.

(** The white space and line terminators of ECMAScript that take one byte:
    TAB, LF, VT, FF, CR and the space. *)
Definition ws1 (a : ascii) : bool :=
  let n := code a in (((9 <=? n) && (n <=? 13)) || (n =? 32))%N.

(** U+00A0, in two bytes. *)
Definition ws2 (a b : ascii) : bool :=
  ((code a =? 0xC2) && (code b =? 0xA0))%N.

(** The ones in three bytes: U+1680, U+2000 to U+200A, U+2028, U+2029,
    U+202F, U+205F, U+3000 and U+FEFF. *)
Definition ws3 (a b c : ascii) : bool :=
  let x := code a in
  let y := code b in
  let z := code c in
  (((x =? 0xE1) && (y =? 0x9A) && (z =? 0x80))
   || ((x =? 0xE2) && (y =? 0x80)
       && (((0x80 <=? z) && (z <=? 0x8A)) || (z =? 0xA8) || (z =? 0xA9)
           || (z =? 0xAF)))
   || ((x =? 0xE2) && (y =? 0x81) && (z =? 0x9F))
   || ((x =? 0xE3) && (y =? 0x80) && (z =? 0x80))
   || ((x =? 0xEF) && (y =? 0xBB) && (z =? 0xBF)))%N.

(** Drops the white space at the head of the bytes. *)
Fixpoint trimStart_bytes (s : list ascii) : list ascii :=
  match s with
  | [] => []
  | a :: r1 =>
      if ws1 a then trimStart_bytes r1
      else
        match r1 with
        | [] => s
        | b :: r2 =>
            if ws2 a b then trimStart_bytes r2
            else
              match r2 with
              | [] => s
              | c :: r3 => if ws3 a b c then trimStart_bytes r3 else s
              end
        end
  end.

(** The same on the reversed bytes, where a character's bytes come last
    byte first. *)
Fixpoint trimEnd_rev (s : list ascii) : list ascii :=
  match s with
  | [] => []
  | a :: r1 =>
      if ws1 a then trimEnd_rev r1
      else
        match r1 with
        | [] => s
        | b :: r2 =>
            if ws2 b a then trimEnd_rev r2
            else
              match r2 with
              | [] => s
              | c :: r3 => if ws3 c b a then trimEnd_rev r3 else s
              end
        end
  end.

(** [s.trim()]. *)
Definition trim (s : string) : string :=
  string_of_list_ascii
    (rev (trimEnd_rev (rev (trimStart_bytes (list_ascii_of_string s))))).

(** [sub] occurs somewhere in [s]. *)
Definition mentions (s sub : string) : Prop :=
  exists a b : string, s = (a ++ sub ++ b)%string.

End Text.

(* ================================================================== *)
(** * Invariants and relations used to state properties of the store *)

Module HistoryInv.

Import History.
Local Open Scope list_scope.

(** What every row of a store built by the route satisfies. *)
Definition row_well_formed (r : Row) : Prop :=
  originalCode r <> "" /\ improvedCode r <> ""
  /\ hash r = Sha256.hex (originalCode r ++ improvedCode r)%string.

(** The rowids grow in the order of insertion and lie between 1 and the
    counter. *)
Definition ids_increasing (st : Store) : Prop :=
  StronglySorted Z.lt (map id (rows st))
  /\ Forall (fun r => (1 <= id r <= seq st)%Z) (rows st)
  /\ (0 <= seq st)%Z.

(** The guard of the route lets the call through to the [INSERT]. *)
Definition reaches_insert (c : string * Req.Body) : bool :=
  Js.truthy_opt (Req.originalCode (snd c))
  && Js.truthy_opt (Req.improvedCode (snd c)).

(** Two calls carry the same pair of code fields. *)
Definition same_pairs (c1 c2 : string * Req.Body) : Prop :=
  Req.originalCode (snd c1) = Req.originalCode (snd c2)
  /\ Req.improvedCode (snd c1) = Req.improvedCode (snd c2).

(** The pairs of [cs] that the guard accepts are stored in [st]. *)
Definition pairs_stored (cs : list (string * Req.Body)) (st : Store)
  : Prop :=
  Forall (fun c => forall o i,
              Req.originalCode (snd c) = Some o ->
              Req.improvedCode (snd c) = Some i -> o <> "" -> i <> "" ->
              has_hash (Sha256.hex (o ++ i)%string) st = true) cs.

(** [r] is strictly older than the clock reading [now]. *)
Definition older_than (now : string) (r : Row) : Prop :=
  (timestamp r <? now)%string = true.

End HistoryInv.

(* ================================================================== *)
(** * The handlers of the component that call the review, the chat and the
      history route *)

Module App.

Import Gemini.
Local Open Scope list_scope.
Local Open Scope string_scope.

(** ** The chat *)

(** One turn of the chat, as the component keeps it. *)
Record ChatMessage := mkMessage
  { role : Role;
    text : string }.

Record ChatState := mkChatState
  { chatMessages : list ChatMessage;
    chatInput : string;
    isChatLoading : bool }.

Definition chat_error_text : string :=
  "Error: Failed to get response from AI.".

(** [chatMessages.map(m => ({ role: m.role, parts: [{ text: m.text }] }))]. *)
Definition to_history (ms : list ChatMessage) : list Content :=
  map (fun m => mkContent (role m) [text m]) ms.

(** [handleSendMessage], run to its end with no other handler in between:
    the requests it issued and the chat state it leaves. [code], [model]
    and [errorLog] are the values of the component's state. *)
Definition handleSendMessage (apiKey : option string) (service : Service)
  (code model errorLog : string) (st : ChatState)
  : list Request * ChatState :=
  if negb (Js.truthy (Text.trim (chatInput st))) || isChatLoading st
  then ([], st)
  else
    let userMessage := Text.trim (chatInput st) in
    let run :=
      chatWithCode apiKey service code userMessage
                   (Some (to_history (chatMessages st))) (Some model)
                   (Some errorLog) in
    let reply :=
      match snd run with
      | Return response => response
      | Throw _ => chat_error_text
      end in
    (fst run,
     mkChatState
       (chatMessages st
        ++ [mkMessage user userMessage; mkMessage model_role reply])
       "" false).

(** A transcript made of exchanges: a user turn, then a model turn. *)
Fixpoint exchanges (ms : list ChatMessage) : Prop :=
  match ms with
  | [] => True
  | q :: a :: rest =>
      role q = user /\ role a = model_role /\ exchanges rest
  | _ => False
  end.

(** ** The review *)

Inductive Tab := issues | optimized | explanation | documentation | chat.

(** What the component shows of the last review; [result] is [None] where
    the state holds [null]. *)
Record ReviewView := mkView
  { result : option Json.value;
    error : option string;
    activeTab : Tab }.

(** The value of a number literal that is written as an integer and that a
    JavaScript number holds exactly. *)
Fixpoint digits_value (acc : Z) (ds : list ascii) : option Z :=
  match ds with
  | [] => Some acc
  | d :: rest =>
      if Json.is_digit d
      then digits_value (10 * acc + Z.of_N (Json.code d) - 48)%Z rest
      else None
  end.

Definition int_of_literal (literal : string) : option Z :=
  let value :=
    match list_ascii_of_string literal with
    | [] => None
    | c :: rest =>
        if (Json.code c =? 45)%N
        then match rest with
             | [] => None
             | _ => option_map Z.opp (digits_value 0 rest)
             end
        else digits_value 0 (c :: rest)
    end in
  match value with
  | Some n => if (Z.abs n <=? 2 ^ 53)%Z then Some n else None
  | None => None
  end.

(** A property that is absent, or text. The outer [None] marks a value of
    another kind, which this embedding does not follow to the server. *)
Definition text_property (v : option Json.value) : option (option string) :=
  match v with
  | None => Some None
  | Some (Json.JString s) => Some (Some s)
  | Some _ => None
  end.

Definition integer_property (v : option Json.value) : option (option Z) :=
  match v with
  | None => Some None
  | Some (Json.JNumber literal) =>
      match int_of_literal literal with
      | Some n => Some (Some n)
      | None => None
      end
  | Some _ => None
  end.

Definition complexity_property (v : option Json.value)
  : option (option History.Req.Complexity) :=
  match v with
  | None => Some None
  | Some (Json.JObject cs) =>
      match text_property (Json.lookup "time" cs),
            text_property (Json.lookup "space" cs),
            integer_property (Json.lookup "cyclomatic" cs) with
      | Some t, Some s, Some c =>
          Some (Some (History.Req.mkComplexity t s c))
      | _, _, _ => None
      end
  | Some _ => None
  end.


(** The body that [handleReview] posts for the result [res], as the route
    reads it after [JSON.stringify] and the body parser:
    [{ originalCode: code, improvedCode: res.optimizedCode,
       language: res.detectedLanguage || language,
       complexity: res.complexity }].
    - [Some (Some body)]: the request is sent with this body;
    - [Some None]: [res] is [null], reading its property throws and the
      inner [catch] logs it, so no request is sent;
    - [None]: a property holds a value that is neither absent nor of the
      kind the schema declares (or a number that is not a plain integer),
      or a text of the body holds a lone surrogate; the embedding of the
      route covers well-formed text and integers only. *)
Definition body_well_formed (body : History.Req.Body) : bool :=
  Js.isWellFormed_opt (History.Req.originalCode body)
  && Js.isWellFormed_opt (History.Req.improvedCode body)
  && Js.isWellFormed_opt (History.Req.language body)
  && match History.Req.complexity body with
     | Some c =>
         Js.isWellFormed_opt (History.Req.time c)
         && Js.isWellFormed_opt (History.Req.space c)
     | None => true
     end.

Definition followed (body : History.Req.Body)
  : option (option History.Req.Body) :=
  if body_well_formed body then Some (Some body) else None.

Definition history_body (code language : string) (res : Json.value)
  : option (option History.Req.Body) :=
  match res with
  | Json.JNull => Some None
  | Json.JObject ms =>
      match text_property (Json.lookup "optimizedCode" ms),
            text_property (Json.lookup "detectedLanguage" ms),
            complexity_property (Json.lookup "complexity" ms) with
      | Some improved, Some detected, Some complexity =>
          followed (History.Req.mkBody
                      (Some code) improved
                      (Some (Js.or_default detected language))
                      complexity)
      | _, _, _ => None
      end
  | _ =>
      followed (History.Req.mkBody (Some code) None (Some language) None)
  end.

(** [handleReview], run to its end: the requests issued to the service, the
    view it leaves and the history store afterwards. The arguments after
    [now] are the values of the component's state; [delivered] tells
    whether the POST reaches the route; [now] is the server's clock at
    that time. [None] is returned where [history_body] is. *)
Definition handleReview (apiKey : option string) (service : Service)
  (delivered : bool) (now : string)
  (code language targetLanguage : string) (mode : ReviewMode)
  (style : ImplementationStyle) (model errorLog houseStyle : string)
  (verbosity : VerbosityLevel) (tone : ToneStyle)
  (view : ReviewView) (st : History.Store)
  : option (list Request * ReviewView * History.Store) :=
  if negb (Js.truthy (Text.trim code)) then Some ([], view, st)
  else
    let run :=
      reviewCode apiKey service code language (Some mode)
                 (Some targetLanguage) (Some style) (Some model)
                 (Some errorLog) (Some houseStyle) (Some verbosity)
                 (Some tone) in
    match snd run with
    | Throw m =>
        Some (fst run,
              mkView (result view) (Some (or_else m "")) (activeTab view),
              st)
    | Return res =>
        let view' :=
          mkView (match res with Json.JNull => None | _ => Some res end)
                 None issues in
        match history_body code language res with
        | None => None
        | Some None => Some (fst run, view', st)
        | Some (Some body) =>
            Some (fst run, view',
                  if delivered
                  then snd (History.post_history now body st)
                  else st)
        end
    end.

End App.

(* ================================================================== *)
(** * The other revision of the module: [vibeCode] *)

Module Vibe.

Import Gemini.
Local Open Scope list_scope.
Local Open Scope string_scope.

(** [mapModel] of this revision knows two aliases. *)
Definition mapModel (model : string) : string :=
  if model =? "claude-4" then "gemini-3-flash-preview"
  else if model =? "gpt-5" then "gemini-3.1-pro-preview"
  else model.

Record File := mkFile
  { name : string;
    content : string }.

Definition dq : string := String (ascii_of_nat 34) "".

(** The block of one file in the prompt. *)
Definition fileBlock (f : File) : string :=
  "--- FILE: " ++ name f ++ " ---" ++ nl ++ "```" ++ nl ++ content f ++ nl
  ++ "```".

(** The blocks of the files, joined by an empty line. *)
Definition filesContext (files : list File) : string :=
  String.concat (nl ++ nl) (map fileBlock files).

Definition vibe_prompt_lines (intent : string) (files : list File)
  : list string :=
    [ "You are a Repository-Wide Contextual Intelligence Agent.";
      "      Your goal is to perform " ++ dq ++ "Vibe Coding" ++ dq ++ " and Cross-File Refactoring based on the user's high-level intent.";
      "      ";
      "      USER INTENT: " ++ dq ++ intent ++ dq;
      "      ";
      "      WORKSPACE FILES:";
      "      " ++ filesContext files;
      "      ";
      "      Tasks:";
      "      1. Analyze the relationships between the provided files (Graph-Based Code Mapping).";
      "      2. Identify which files need to be modified to fulfill the user's intent.";
      "      3. Perform the necessary cross-file refactoring, ensuring type safety and consistency across the project.";
      "      4. Return a JSON object containing:";
      "         - `explanation`: A detailed explanation of the changes made and how they propagate across the files.";
      "         - `dependencyGraph`: A markdown representation (e.g., a bulleted list or mermaid.js syntax if applicable) of the dependency graph between the files.";
      "         - `modifiedFiles`: An array of objects, each containing the `name` of the modified file and its new `content`. Only include files that were actually changed or newly created.";
      "";
      "      CRITICAL: You MUST return valid JSON matching the schema." ].

Definition vibe_prompt (intent : string) (files : list File) : string :=
  lines (vibe_prompt_lines intent files).

Definition modifiedFileSchema : Json.Schema :=
  Json.SObject [ ("name", Json.SString); ("content", Json.SString) ]
               [ "name"; "content" ].

Definition vibeSchema : Json.Schema :=
  Json.SObject
    [ ("explanation", Json.SString); ("dependencyGraph", Json.SString);
      ("modifiedFiles", Json.SArray modifiedFileSchema) ]
    [ "explanation"; "dependencyGraph"; "modifiedFiles" ].

Definition vibe_empty_response : string := "Empty response from AI.".

Definition vibe_default_error : string :=
  "An error occurred during Vibe Coding.".

Definition vibe_request (intent : string) (files : list File)
  (model : option string) : Request :=
  GenerateContent
    (mkGenerate (mapModel (or_else model "gemini-3.1-pro-preview"))
                (vibe_prompt intent files)
                (mkConfig "application/json" LOW vibeSchema)).

(** The body of the [try] block once the service has answered.
    [parseMessage t] is the message of the [SyntaxError] that [JSON.parse]
    throws on [t], which the engine words. *)
Definition vibe_response (parseMessage : string -> string) (o : Outcome)
  : Completion Json.value :=
  match o with
  | Failed m => Throw m
  | Responded text =>
      match text with
      | Some t =>
          if negb (Js.truthy t) then Throw (Some vibe_empty_response)
          else
            match Json.parse t with
            | Some v => Return v
            | None => Throw (Some (parseMessage t))
            end
      | None => Throw (Some vibe_empty_response)
      end
  end.

Definition vibeCode (apiKey : option string) (service : Service)
  (parseMessage : string -> string)
  (intent : string) (files : list File) (model : option string)
  : list Request * Completion Json.value :=
  if negb (Js.truthy_opt apiKey)
  then ([], Throw (Some MissingCredentialsError))
  else
    let request := vibe_request intent files model in
    ([request],
     match vibe_response parseMessage (service request) with
     | Return v => Return v
     | Throw m => Throw (Some (Js.or_default m vibe_default_error))
     end).

End Vibe.

(* ================================================================== *)
(** * The files of the workspace, as the component keeps them *)

Module Workspace.

Local Open Scope list_scope.
Local Open Scope string_scope.

Record File := mkFile
  { name : string;
    content : string }.

Record State := mkState
  { files : list File;
    activeFileIndex : nat }.

(** [files[activeFileIndex]?.content || ""]. *)
Definition code (st : State) : string :=
  match nth_error (files st) (activeFileIndex st) with
  | Some f => content f
  | None => ""
  end.

Fixpoint set_content (i : nat) (c : string) (l : list File) : list File :=
  match l, i with
  | [], _ => []
  | f :: rest, O => mkFile (name f) c :: rest
  | f :: rest, S k => f :: set_content k c rest
  end.

(** [setCode]: the content of the active file is replaced. [None] stands
    for the [TypeError] of writing to [newFiles[activeFileIndex]] when
    there is no such file. *)
Definition setCode (newContent : string) (st : State) : option State :=
  match nth_error (files st) (activeFileIndex st) with
  | Some _ =>
      Some (mkState (set_content (activeFileIndex st) newContent (files st))
                    (activeFileIndex st))
  | None => None
  end.

(** A natural number in a template literal: its decimal digits. [fuel]
    bounds the number of digits. *)
Fixpoint decimal_digits (fuel n : nat) (acc : string) : string :=
  match fuel with
  | O => acc
  | S f =>
      let acc' := String (ascii_of_nat (48 + Nat.modulo n 10)) acc in
      if (Nat.div n 10 =? 0)%nat then acc'
      else decimal_digits f (Nat.div n 10) acc'
  end.

Definition decimal (n : nat) : string := decimal_digits (S n) n "".

(** [addFile]. *)
Definition addFile (st : State) : State :=
  mkState
    (files st
     ++ [mkFile ("file" ++ decimal (List.length (files st) + 1) ++ ".js")
                ""])
    (List.length (files st)).

(** [files.filter((_, i) => i !== index)]. *)
Fixpoint remove_at (index : nat) (l : list File) : list File :=
  match l, index with
  | [], _ => []
  | _ :: rest, O => rest
  | f :: rest, S k => f :: remove_at k rest
  end.

(** [removeFile(index)]. *)
Definition removeFile (index : nat) (st : State) : State :=
  if (List.length (files st) <=? 1)%nat then st
  else
    let newFiles := remove_at index (files st) in
    mkState newFiles
            (if (List.length newFiles <=? activeFileIndex st)%nat
             then List.length newFiles - 1
             else activeFileIndex st).

(** There is a file, and the active index names one. *)
Definition well_formed (st : State) : Prop :=
  (activeFileIndex st < List.length (files st))%nat.

End Workspace.

(* ================================================================== *)
(** * More sample data *)

Module Samples.

Local Open Scope list_scope.
Local Open Scope string_scope.

Definition complexity_value : Json.value :=
  Json.JObject
    [ ("time", Json.JString "O(n)"); ("space", Json.JString "O(1)");
      ("cyclomatic", Json.JNumber "2") ].

(** What [Scenario.payload_complete] parses to. *)
Definition value_complete : Json.value :=
  Json.JObject
    [ ("detectedLanguage", Json.JString "python");
      ("issues", Json.JArray []);
      ("optimizedCode", Json.JString "print(1)");
      ("explanation", Json.JString "Nothing to fix.");
      ("documentation", Json.JString "Prints 1.");
      ("overallScore", Json.JNumber "8");
      ("detailedScores", Scenario.scores_value);
      ("complexity", complexity_value) ].

(** The request of a review of [print(1)] under the settings of the
    examples. *)
Definition review_request_sent : Gemini.Request :=
  Gemini.review_request "print(1)" "auto" (Some Gemini.industry)
    (Some "none") (Some Gemini.default) (Some "gpt-5") (Some "") (Some "")
    (Some Gemini.normal) (Some Gemini.professional).

(** The history after that review was answered with
    [Scenario.payload_complete] at [Scenario.t0]. *)
Definition store_after_review : History.Store :=
  History.mkStore
    [ History.mkRow 1 "print(1)" "print(1)" Scenario.t0 "python"
        "O(n)" "O(1)" 2 (Sha256.hex "print(1)print(1)") ]
    1.

End Samples.

(* ================================================================== *)
(** * Facts *)

(** ** Truthiness *)

Lemma truthy_true_iff (s : string) : Js.truthy s = true <-> s <> "".
Proof.
  unfold Js.truthy. rewrite negb_true_iff. split.
  - intros H E. subst s. discriminate H.
  - intros H. destruct s as [|c s']; [contradiction | reflexivity].
Qed.

Lemma truthy_false_iff (s : string) : Js.truthy s = false <-> s = "".
Proof.
  destruct s; unfold Js.truthy; simpl; split; congruence.
Qed.

(** ** The digest agrees with the FIPS 180-4 constants and test vectors *)

Example sha256_constants :
  List.length Sha256.K = 64
  /\ nth 0 Sha256.K 0%Z = 0x428a2f98%Z
  /\ nth 63 Sha256.K 0%Z = 0xc67178f2%Z
  /\ nth 0 Sha256.H0 0%Z = 0x6a09e667%Z
  /\ nth 7 Sha256.H0 0%Z = 0x5be0cd19%Z.
Proof. vm_compute. repeat split. Qed.

Example sha256_abc :
  Sha256.hex "abc"
  = "ba7816bf8f01cfea414140de5dae2223b00361a396177a9cb410ff61f20015ad".
Proof. vm_compute. reflexivity. Qed.

Example sha256_empty :
  Sha256.hex ""
  = "e3b0c44298fc1c149afbf4c8996fb92427ae41e4649b934ca495991b7852b855".
Proof. vm_compute. reflexivity. Qed.

Example sha256_two_blocks :
  Sha256.hex "abcdbcdecdefdefgefghfghighijhijkijkljklmklmnlmnomnopnopq"
  = "248d6a61d20638b8e5c026930c3e6039a33ce45964ff2167f6ecedd419db06c1".
Proof. vm_compute. reflexivity. Qed.

(** ** The history store *)

Section HistoryFacts.

Import History.
Local Open Scope list_scope.

Implicit Types (st : Store) (body : Req.Body) (now h o i : string).

Lemma has_hash_In h st :
  has_hash h st = true <-> In h (map hash (rows st)).
Proof.
  unfold has_hash. rewrite existsb_exists, in_map_iff. split.
  - intros [r [Hin Heq]]. apply String.eqb_eq in Heq. eauto.
  - intros [r [Heq Hin]]. exists r. split; [assumption|].
    now apply String.eqb_eq.
Qed.

Lemma has_hash_false h st :
  has_hash h st = false <-> ~ In h (map hash (rows st)).
Proof.
  rewrite <- has_hash_In. destruct (has_hash h st); split; congruence.
Qed.

(** The three ways a call ends. *)
Lemma post_rejected now body st :
  Js.truthy_opt (Req.originalCode body) = false
  \/ Js.truthy_opt (Req.improvedCode body) = false ->
  post_history now body st = (Post400 "Missing required fields", st).
Proof.
  unfold post_history, Js.truthy_opt.
  destruct (Req.originalCode body) as [o|], (Req.improvedCode body) as [i|];
    intros [H|H]; try reflexivity; try discriminate H;
    rewrite H; simpl; rewrite ?orb_true_r; reflexivity.
Qed.

Lemma post_present now body st o i :
  Req.originalCode body = Some o -> Req.improvedCode body = Some i ->
  o <> "" -> i <> "" ->
  has_hash (Sha256.hex (o ++ i)%string) st = true ->
  post_history now body st
  = (Post200 true false, mkStore (rows st) (seq st + 1)).
Proof.
  intros Ho Hi Hno Hni Hh. unfold post_history, insert_or_ignore.
  rewrite Ho, Hi.
  apply truthy_true_iff in Hno, Hni. rewrite Hno, Hni. simpl.
  rewrite Hh. reflexivity.
Qed.

Lemma post_absent now body st o i :
  Req.originalCode body = Some o -> Req.improvedCode body = Some i ->
  o <> "" -> i <> "" ->
  has_hash (Sha256.hex (o ++ i)%string) st = false ->
  post_history now body st
  = (Post200 true true,
     mkStore (rows st ++ [written_row now body o i (seq st + 1)])
             (seq st + 1)).
Proof.
  intros Ho Hi Hno Hni Hh. unfold post_history, insert_or_ignore.
  rewrite Ho, Hi.
  apply truthy_true_iff in Hno, Hni. rewrite Hno, Hni. simpl.
  rewrite Hh. reflexivity.
Qed.

(** [has_hash] looks at the rows only. *)
Lemma has_hash_rows h st st' :
  rows st' = rows st -> has_hash h st' = has_hash h st.
Proof. unfold has_hash. now intros ->. Qed.

(** Every call leaves the rows as they were or appends one row; the counter
    never goes back. *)
Lemma post_cases now body st :
  (rows (snd (post_history now body st)) = rows st
   /\ (seq st <= seq (snd (post_history now body st)))%Z)
  \/ exists o i,
       Req.originalCode body = Some o /\ Req.improvedCode body = Some i
       /\ o <> "" /\ i <> ""
       /\ has_hash (Sha256.hex (o ++ i)%string) st = false
       /\ snd (post_history now body st)
          = mkStore (rows st ++ [written_row now body o i (seq st + 1)])
                    (seq st + 1).
Proof.
  destruct (Req.originalCode body) as [o|] eqn:Ho.
  2:{ left. rewrite post_rejected; [simpl; split; [reflexivity | lia]|].
      rewrite Ho. now left. }
  destruct (Req.improvedCode body) as [i|] eqn:Hi.
  2:{ left. rewrite post_rejected; [simpl; split; [reflexivity | lia]|].
      rewrite Hi. now right. }
  destruct (Js.truthy o) eqn:To.
  2:{ left. rewrite post_rejected; [simpl; split; [reflexivity | lia]|].
      rewrite Ho. now left. }
  destruct (Js.truthy i) eqn:Ti.
  2:{ left. rewrite post_rejected; [simpl; split; [reflexivity | lia]|].
      rewrite Hi. now right. }
  apply truthy_true_iff in To, Ti.
  destruct (has_hash (Sha256.hex (o ++ i)%string) st) eqn:Hh.
  - left. rewrite (post_present now body st o i) by assumption.
    simpl. split; [reflexivity | lia].
  - right. exists o, i. rewrite (post_absent now body st o i) by assumption.
    repeat split; assumption.
Qed.

(** Rows are never removed: a hash that is stored stays stored. *)
Lemma post_keeps_hash now body st h :
  has_hash h st = true ->
  has_hash h (snd (post_history now body st)) = true.
Proof.
  intros Hh. destruct (post_cases now body st)
    as [[E _] | (o & i & _ & _ & _ & _ & _ & E)].
  { now rewrite (has_hash_rows h _ _ E). }
  rewrite E. apply has_hash_In. simpl. rewrite map_app. apply in_or_app. left.
  now apply has_hash_In.
Qed.

Lemma run_posts_keeps_hash calls st h :
  has_hash h st = true -> has_hash h (run_posts calls st) = true.
Proof.
  revert st. induction calls as [|c calls IH]; intros st Hh; simpl.
  - assumption.
  - apply IH. now apply post_keeps_hash.
Qed.

(** After an accepted call the hash of its pair is stored. *)
Lemma post_stores_hash now body st o i :
  Req.originalCode body = Some o -> Req.improvedCode body = Some i ->
  o <> "" -> i <> "" ->
  has_hash (Sha256.hex (o ++ i)%string) (snd (post_history now body st))
  = true.
Proof.
  intros Ho Hi Hno Hni.
  destruct (has_hash (Sha256.hex (o ++ i)%string) st) eqn:Hh.
  - rewrite (post_present now body st o i) by assumption. exact Hh.
  - rewrite (post_absent now body st o i) by assumption.
    apply has_hash_In. simpl. rewrite map_app. apply in_or_app. right.
    simpl. now left.
Qed.

(** The invariant of the UNIQUE column and of the rowid counter. *)
Lemma post_keeps_unique now body st :
  unique_hashes st -> unique_hashes (snd (post_history now body st)).
Proof.
  intros U. destruct (post_cases now body st)
    as [[E _] | (o & i & _ & _ & _ & _ & Hh & E)].
  { unfold unique_hashes. now rewrite E. }
  rewrite E. unfold unique_hashes in *. simpl. rewrite map_app. simpl.
  apply NoDup_rev in U. rewrite <- rev_involutive. apply NoDup_rev.
  rewrite rev_app_distr. simpl. constructor; [|assumption].
  rewrite <- in_rev. now apply has_hash_false.
Qed.

Lemma post_keeps_ids_bounded now body st :
  ids_bounded st -> ids_bounded (snd (post_history now body st)).
Proof.
  intros B. destruct (post_cases now body st)
    as [[E L] | (o & i & _ & _ & _ & _ & _ & E)].
  { unfold ids_bounded in *. rewrite E.
    eapply Forall_impl; [|exact B]. simpl. intros r Hr. lia. }
  rewrite E. unfold ids_bounded in *. simpl. apply Forall_app. split.
  - eapply Forall_impl; [|exact B]. simpl. intros r Hr. lia.
  - constructor; [simpl; lia | constructor].
Qed.

Lemma run_posts_invariant calls st :
  unique_hashes st /\ ids_bounded st ->
  unique_hashes (run_posts calls st) /\ ids_bounded (run_posts calls st).
Proof.
  revert st. induction calls as [|c calls IH]; intros st [U B]; simpl.
  - now split.
  - apply IH. split;
      [now apply post_keeps_unique | now apply post_keeps_ids_bounded].
Qed.

Lemma empty_invariant : unique_hashes empty /\ ids_bounded empty.
Proof. split; constructor. Qed.

(** No two rows of a store built by the route share a hash or a rowid. *)
Lemma reachable_rows_distinct calls :
  NoDup (map hash (rows (run_posts calls empty)))
  /\ NoDup (map id (rows (run_posts calls empty))).
Proof.
  split; [apply run_posts_invariant, empty_invariant|].
  assert (G : forall cs st,
             ids_bounded st -> NoDup (map id (rows st)) ->
             NoDup (map id (rows (run_posts cs st)))).
  { induction cs as [|c cs IH]; intros st B N; simpl; [assumption|].
    apply IH; [now apply post_keeps_ids_bounded|].
    destruct (post_cases (fst c) (snd c) st)
      as [[E _] | (o & i & _ & _ & _ & _ & _ & E)]; rewrite E; [assumption|].
    simpl. rewrite map_app. simpl.
    apply NoDup_rev in N. rewrite <- rev_involutive. apply NoDup_rev.
    rewrite rev_app_distr. simpl. constructor; [|assumption].
    rewrite <- in_rev, in_map_iff. intros (r & Hid & Hin).
    unfold ids_bounded in B. rewrite Forall_forall in B.
    specialize (B r Hin). lia. }
  apply G; [apply empty_invariant | constructor].
Qed.

End HistoryFacts.

(** ** Order of the listing *)

Section Ordering.

Import History.
Local Open Scope list_scope.

Lemma ascii_compare_refl (c : ascii) : Ascii.compare c c = Eq.
Proof. unfold Ascii.compare. apply N.compare_refl. Qed.

Lemma ascii_compare_trans (a b c : ascii) (r : comparison) :
  r <> Eq ->
  Ascii.compare a b = r -> Ascii.compare b c = r -> Ascii.compare a c = r.
Proof.
  unfold Ascii.compare. intros Hr Hab Hbc.
  destruct r; [contradiction | |].
  - rewrite N.compare_lt_iff in *. lia.
  - rewrite N.compare_gt_iff in *. lia.
Qed.

Lemma string_compare_lt_trans (a b c : string) :
  String.compare a b = Lt -> String.compare b c = Lt ->
  String.compare a c = Lt.
Proof.
  revert b c. induction a as [|x a IH]; intros [|y b] [|z c]; simpl;
    try congruence.
  destruct (Ascii.compare x y) eqn:Hxy; try discriminate;
    destruct (Ascii.compare y z) eqn:Hyz; try discriminate; intros Hab Hbc.
  - apply Ascii.compare_eq_iff in Hxy, Hyz. subst.
    rewrite ascii_compare_refl. now apply (IH b c).
  - apply Ascii.compare_eq_iff in Hxy. subst. now rewrite Hyz.
  - apply Ascii.compare_eq_iff in Hyz. subst. now rewrite Hxy.
  - now rewrite (ascii_compare_trans x y z Lt).
Qed.

Lemma string_leb_trans (a b c : string) :
  (a <=? b)%string = true -> (b <=? c)%string = true ->
  (a <=? c)%string = true.
Proof.
  unfold String.leb. intros Hab Hbc.
  destruct (String.compare a b) eqn:Eab; try discriminate.
  - apply String.compare_eq_iff in Eab. now subst.
  - destruct (String.compare b c) eqn:Ebc; try discriminate.
    + apply String.compare_eq_iff in Ebc. subst. now rewrite Eab.
    + now rewrite (string_compare_lt_trans a b c).
Qed.

Lemma desc_trans (a b c : Row) : desc a b -> desc b c -> desc a c.
Proof. unfold desc. intros H1 H2. eapply string_leb_trans; eassumption. Qed.

Lemma desc_total (a b : Row) :
  newer_or_equal a b = false -> desc b a.
Proof.
  unfold newer_or_equal, desc. intros H.
  destruct (String.leb_total (timestamp b) (timestamp a)) as [H1|H1];
    congruence.
Qed.

Lemma insert_desc_perm (x : Row) (l : list Row) :
  Permutation (x :: l) (insert_desc x l).
Proof.
  induction l as [|y l IH]; simpl.
  - reflexivity.
  - destruct (newer_or_equal x y).
    + reflexivity.
    + rewrite perm_swap. now apply perm_skip.
Qed.

Lemma order_by_perm (l : list Row) :
  Permutation l (order_by_timestamp_desc l).
Proof.
  induction l as [|x l IH]; simpl.
  - constructor.
  - rewrite <- insert_desc_perm. now apply perm_skip.
Qed.

Lemma insert_desc_sorted (x : Row) (l : list Row) :
  StronglySorted desc l -> StronglySorted desc (insert_desc x l).
Proof.
  induction l as [|y l IH]; intros S; simpl.
  - repeat constructor.
  - inversion S as [|y' l' Sl Fy]; subst.
    destruct (newer_or_equal x y) eqn:E.
    + constructor; [assumption|]. constructor; [exact E|].
      eapply Forall_impl; [|exact Fy]. intros r Hr.
      eapply desc_trans; [exact E | exact Hr].
    + constructor; [now apply IH|].
      eapply Permutation_Forall; [apply insert_desc_perm|].
      constructor; [now apply desc_total | assumption].
Qed.

Lemma order_by_sorted (l : list Row) :
  StronglySorted desc (order_by_timestamp_desc l).
Proof.
  induction l as [|x l IH]; simpl.
  - constructor.
  - now apply insert_desc_sorted.
Qed.

Lemma firstn_sorted (n : nat) (l : list Row) :
  StronglySorted desc l -> StronglySorted desc (firstn n l).
Proof.
  revert l. induction n as [|n IH]; intros [|x l] S; simpl;
    try constructor.
  - inversion S; subst. now apply IH.
  - inversion S as [|x' l' Sl Fx]; subst.
    rewrite Forall_forall in *. intros r Hr. apply Fx.
    rewrite <- (firstn_skipn n l). apply in_or_app. now left.
Qed.

(** Rows that the limit cuts off are no newer than any row listed. *)
Lemma select_history_most_recent (st : Store) :
  exists cut,
    Permutation (rows st) (select_history st ++ cut)
    /\ Forall (fun old => Forall (fun r => desc r old) (select_history st))
              cut.
Proof.
  exists (skipn 100 (order_by_timestamp_desc (rows st))).
  unfold select_history. split.
  - rewrite firstn_skipn. apply order_by_perm.
  - pose proof (order_by_sorted (rows st)) as S.
    rewrite <- (firstn_skipn 100 (order_by_timestamp_desc (rows st))) in S.
    remember (firstn 100 (order_by_timestamp_desc (rows st))) as kept.
    remember (skipn 100 (order_by_timestamp_desc (rows st))) as cut.
    clear Heqkept Heqcut.
    rewrite Forall_forall. intros old Hold.
    induction kept as [|r kept IH]; [constructor|].
    simpl in S. inversion S as [|r' l' Sl Fr]; subst.
    constructor; [|now apply IH].
    rewrite Forall_forall in Fr. apply Fr. apply in_or_app. now right.
Qed.

End Ordering.

(** ** The properties of the history store *)

Section HistoryClaims.

Import History.
Local Open Scope list_scope.

(** A call whose pair is stored answers [inserted = false] and writes no
    row; the rowid that the statement took stays taken, so the counter
    stands one higher. *)
Lemma stored_pair_is_ignored :
  forall (st : Store) (now : string) (body : Req.Body) (o i : string),
    Req.originalCode body = Some o -> Req.improvedCode body = Some i ->
    o <> "" -> i <> "" ->
    has_hash (Sha256.hex (o ++ i)%string) st = true ->
    fst (post_history now body st) = Post200 true false
    /\ rows (snd (post_history now body st)) = rows st
    /\ seq (snd (post_history now body st)) = (seq st + 1)%Z.
Proof.
  intros st now body o i Ho Hi No Ni Hh.
  rewrite (post_present now body st o i) by assumption.
  repeat split.
Qed.

(** C1: for every two calls to [POST /api/history] with the same
    [originalCode] and the same [improvedCode], both non-empty as the record
    operation requires, whatever their other fields and clock readings and
    whatever calls come between them, the second call answers with success
    and [inserted = false], and the table holds exactly the rows it held
    before that call: the row count is unchanged and no row is written
    twice. *)
Theorem record_duplicate_is_noop :
  forall (st : Store) (now1 now2 : string) (b1 b2 : Req.Body)
         (between : list (string * Req.Body)) (o i : string),
    Req.originalCode b1 = Some o -> Req.improvedCode b1 = Some i ->
    Req.originalCode b2 = Some o -> Req.improvedCode b2 = Some i ->
    o <> "" -> i <> "" ->
    let st2 := run_posts between (snd (post_history now1 b1 st)) in
    fst (post_history now2 b2 st2) = Post200 true false
    /\ rows (snd (post_history now2 b2 st2)) = rows st2
    /\ List.length (rows (snd (post_history now2 b2 st2)))
       = List.length (rows st2).
Proof.
  intros st now1 now2 b1 b2 between o i Ho1 Hi1 Ho2 Hi2 Hno Hni st2.
  destruct (stored_pair_is_ignored st2 now2 b2 o i) as (A & R & _);
    try assumption.
  { apply run_posts_keeps_hash.
    now apply (post_stores_hash now1 b1 st o i). }
  split; [exact A|]. split; [exact R | now rewrite R].
Qed.

Lemma record_duplicate_is_noop_witness :
  let st2 :=
    run_posts
      [(Scenario.t0, Scenario.pair "function g(){}" "const g=()=>{};")]
      (snd (post_history Scenario.t0
              (Scenario.pair "function f(){}" "function f(){}") empty)) in
  let again :=
    Scenario.pair_with "function f(){}" "function f(){}" "javascript"
                       Scenario.linear in
  fst (post_history Scenario.t1 again st2) = Post200 true false
  /\ rows (snd (post_history Scenario.t1 again st2)) = rows st2
  /\ List.length (rows (snd (post_history Scenario.t1 again st2)))
     = List.length (rows st2).
Proof.
  apply (record_duplicate_is_noop empty Scenario.t0 Scenario.t1
           (Scenario.pair "function f(){}" "function f(){}")
           (Scenario.pair_with "function f(){}" "function f(){}"
                               "javascript" Scenario.linear)
           [(Scenario.t0, Scenario.pair "function g(){}" "const g=()=>{};")]
           "function f(){}" "function f(){}");
    (reflexivity || discriminate).
Defined.

(** C3: [GET /api/history] always answers with a list, of at most 100 rows,
    in which every row's [timestamp] is greater than or equal to the
    [timestamp] of every row after it; on a store without rows the list is
    empty. *)
Theorem list_at_most_100_newest_first :
  (forall st : Store,
      get_history st = Get200 (select_history st)
      /\ List.length (select_history st) <= 100
      /\ StronglySorted desc (select_history st))
  /\ (forall n : Z, get_history (mkStore [] n) = Get200 []).
Proof.
  split.
  - intros st. split; [reflexivity|]. split.
    + unfold select_history. apply firstn_le_length.
    + unfold select_history. apply firstn_sorted, order_by_sorted.
  - intros n. reflexivity.
Qed.

(** C4: a call whose [originalCode] is the empty string, or whose
    [improvedCode] is the empty string, is answered with status 400 and
    leaves the store as it was. *)
Theorem record_rejects_empty_code :
  forall (st : Store) (now : string) (body : Req.Body),
    Req.originalCode body = Some "" \/ Req.improvedCode body = Some "" ->
    post_history now body st = (Post400 "Missing required fields", st).
Proof.
  intros st now body H. apply post_rejected.
  destruct H as [H|H]; rewrite H; [now left | now right].
Qed.

Lemma record_rejects_empty_code_witness :
  post_history Scenario.t0 (Scenario.pair "function f(){}" "") empty
  = (Post400 "Missing required fields", empty).
Proof.
  apply (record_rejects_empty_code empty Scenario.t0
           (Scenario.pair "function f(){}" "")).
  right. reflexivity.
Defined.

(** C5, as stated, fails in two ways. Two pairs with different
    concatenations and an empty component are both answered with status
    400 and no row is written; and a pair that the store already holds is
    answered with [inserted = false]. *)
Lemma record_distinct_not_always_inserted :
  ("" ++ "a" <> "b" ++ "")%string
  /\ post_history Scenario.t0 (Scenario.pair "" "a") empty
     = (Post400 "Missing required fields", empty)
  /\ post_history Scenario.t1 (Scenario.pair "b" "") empty
     = (Post400 "Missing required fields", empty)
  /\ (let st := snd (post_history Scenario.t0 (Scenario.pair "x" "y")
                                  empty) in
      ("x" ++ "y" <> "x" ++ "z")%string
      /\ fst (post_history Scenario.t1 (Scenario.pair "x" "y") st)
         = Post200 true false).
Proof.
  split; [discriminate|]. split; [reflexivity|]. split; [reflexivity|].
  split; [discriminate|].
  vm_compute. reflexivity.
Qed.

(** C5 (amended): for every two calls to [POST /api/history] whose code
    fields are non-empty and whose content hashes differ from each other
    and from every hash in the store, both calls answer [inserted = true],
    and afterwards the store holds two more rows, the two pairs, under
    distinct rowids and distinct hashes. *)
Theorem record_distinct_both_inserted :
  forall (st : Store) (now1 now2 : string) (b1 b2 : Req.Body)
         (o1 i1 o2 i2 : string),
    Req.originalCode b1 = Some o1 -> Req.improvedCode b1 = Some i1 ->
    Req.originalCode b2 = Some o2 -> Req.improvedCode b2 = Some i2 ->
    o1 <> "" -> i1 <> "" -> o2 <> "" -> i2 <> "" ->
    has_hash (Sha256.hex (o1 ++ i1)%string) st = false ->
    has_hash (Sha256.hex (o2 ++ i2)%string) st = false ->
    Sha256.hex (o1 ++ i1)%string <> Sha256.hex (o2 ++ i2)%string ->
    exists (st1 st2 : Store) (r1 r2 : Row),
      post_history now1 b1 st = (Post200 true true, st1)
      /\ post_history now2 b2 st1 = (Post200 true true, st2)
      /\ rows st2 = rows st ++ [r1; r2]
      /\ originalCode r1 = o1 /\ improvedCode r1 = i1
      /\ originalCode r2 = o2 /\ improvedCode r2 = i2
      /\ id r1 <> id r2 /\ hash r1 <> hash r2.
Proof.
  intros st now1 now2 b1 b2 o1 i1 o2 i2 Ho1 Hi1 Ho2 Hi2
         N1 N2 N3 N4 A1 A2 D.
  pose (r1 := written_row now1 b1 o1 i1 (seq st + 1)).
  pose (st1 := mkStore (rows st ++ [r1]) (seq st + 1)).
  pose (r2 := written_row now2 b2 o2 i2 (seq st1 + 1)).
  exists st1, (mkStore (rows st1 ++ [r2]) (seq st1 + 1)), r1, r2.
  assert (A2' : has_hash (Sha256.hex (o2 ++ i2)%string) st1 = false).
  { apply has_hash_false. simpl. rewrite map_app. simpl. intros Hin.
    apply in_app_or in Hin. destruct Hin as [Hin | [Hin | []]].
    - now apply has_hash_false in A2.
    - now apply D. }
  split; [now apply post_absent|].
  split; [now apply post_absent|].
  split; [simpl; now rewrite <- app_assoc|].
  repeat (split; [reflexivity|]).
  split; [simpl; lia | exact D].
Qed.

Lemma record_distinct_both_inserted_witness :
  exists (st1 st2 : Store) (r1 r2 : Row),
    post_history Scenario.t0
      (Scenario.pair "function f(){}" "function f(){}") empty
    = (Post200 true true, st1)
    /\ post_history Scenario.t1
         (Scenario.pair "function f(){}" "const f=()=>{};") st1
       = (Post200 true true, st2)
    /\ rows st2 = rows empty ++ [r1; r2]
    /\ originalCode r1 = "function f(){}"
    /\ improvedCode r1 = "function f(){}"
    /\ originalCode r2 = "function f(){}"
    /\ improvedCode r2 = "const f=()=>{};"
    /\ id r1 <> id r2 /\ hash r1 <> hash r2.
Proof.
  apply (record_distinct_both_inserted empty Scenario.t0 Scenario.t1
           (Scenario.pair "function f(){}" "function f(){}")
           (Scenario.pair "function f(){}" "const f=()=>{};")
           "function f(){}" "function f(){}"
           "function f(){}" "const f=()=>{};");
    [ reflexivity | reflexivity | reflexivity | reflexivity
    | discriminate | discriminate | discriminate | discriminate
    | reflexivity | reflexivity
    | vm_compute; discriminate ].
Defined.

(** A pair whose concatenation equals that of a stored pair is taken for
    that pair. *)
Lemma same_concatenation_is_duplicate :
  forall (st : Store) (now1 now2 : string) (b1 b2 : Req.Body)
         (o1 i1 o2 i2 : string),
    Req.originalCode b1 = Some o1 -> Req.improvedCode b1 = Some i1 ->
    Req.originalCode b2 = Some o2 -> Req.improvedCode b2 = Some i2 ->
    o1 <> "" -> i1 <> "" -> o2 <> "" -> i2 <> "" ->
    (o1 ++ i1 = o2 ++ i2)%string ->
    let st1 := snd (post_history now1 b1 st) in
    fst (post_history now2 b2 st1) = Post200 true false
    /\ rows (snd (post_history now2 b2 st1)) = rows st1.
Proof.
  intros st now1 now2 b1 b2 o1 i1 o2 i2 Ho1 Hi1 Ho2 Hi2 N1 N2 N3 N4 E st1.
  rewrite (post_present now2 b2 st1 o2 i2); try assumption.
  - split; reflexivity.
  - rewrite <- E. now apply (post_stores_hash now1 b1 st o1 i1).
Qed.

(** C10: the pairs [("ab", "c")] and [("a", "bc")] differ and have the same
    concatenation; on the empty store, whatever the other fields and the
    clock readings, recording the first answers [inserted = true] and
    writes one row, and recording the second then answers
    [inserted = false] and writes no row: the table holds the one row of
    the first pair. *)
Theorem dedup_key_does_not_determine_pair :
  exists o1 i1 o2 i2 : string,
    (o1, i1) <> (o2, i2)
    /\ (o1 ++ i1 = o2 ++ i2)%string
    /\ forall (now1 now2 : string) (lang1 lang2 : option string)
              (c1 c2 : option Req.Complexity),
        exists (st1 : Store) (r1 : Row),
          post_history now1 (Req.mkBody (Some o1) (Some i1) lang1 c1) empty
          = (Post200 true true, st1)
          /\ rows st1 = [r1]
          /\ originalCode r1 = o1 /\ improvedCode r1 = i1
          /\ fst (post_history now2
                    (Req.mkBody (Some o2) (Some i2) lang2 c2) st1)
             = Post200 true false
          /\ rows (snd (post_history now2
                          (Req.mkBody (Some o2) (Some i2) lang2 c2) st1))
             = [r1].
Proof.
  exists "ab", "c", "a", "bc".
  split; [discriminate|]. split; [reflexivity|].
  intros now1 now2 lang1 lang2 c1 c2.
  set (b1 := Req.mkBody (Some "ab") (Some "c") lang1 c1).
  set (b2 := Req.mkBody (Some "a") (Some "bc") lang2 c2).
  exists (snd (post_history now1 b1 empty)),
         (written_row now1 b1 "ab" "c" (seq empty + 1)).
  assert (E : post_history now1 b1 empty
              = (Post200 true true,
                 mkStore (rows empty ++ [written_row now1 b1 "ab" "c"
                                           (seq empty + 1)])
                         (seq empty + 1))).
  { apply post_absent; try reflexivity; discriminate. }
  split; [now rewrite E|]. split; [now rewrite E|].
  split; [reflexivity|]. split; [reflexivity|].
  assert (D : fst (post_history now2 b2 (snd (post_history now1 b1 empty)))
              = Post200 true false
              /\ rows (snd (post_history now2 b2
                              (snd (post_history now1 b1 empty))))
                 = rows (snd (post_history now1 b1 empty))).
  { apply (same_concatenation_is_duplicate empty now1 now2 b1 b2
             "ab" "c" "a" "bc");
      [ reflexivity | reflexivity | reflexivity | reflexivity
      | discriminate | discriminate | discriminate | discriminate
      | reflexivity ]. }
  destruct D as [A R]. split; [exact A|]. rewrite R, E. reflexivity.
Qed.

End HistoryClaims.

(** ** The review request builder and the conversational follow-up *)

Section GeminiFacts.

Import Gemini.
Local Open Scope list_scope.

Variables (apiKey : option string) (service : Service).
Variables (code language : string).
Variables (mode : option ReviewMode) (targetLanguage : option string).
Variables (style : option ImplementationStyle) (model : option string).
Variables (errorLog houseStyle : option string).
Variables (verbosity : option VerbosityLevel) (tone : option ToneStyle).

Let request : Request :=
  review_request code language mode targetLanguage style model
                 errorLog houseStyle verbosity tone.

Let review : list Request * Completion Json.value :=
  reviewCode apiKey service code language mode targetLanguage style model
             errorLog houseStyle verbosity tone.

(** With a credential, [reviewCode] issues exactly one call and ends as the
    [try] block and its [catch] decide. *)
Lemma reviewCode_with_key :
  Js.truthy_opt apiKey = true ->
  review
  = ([request],
     match review_response (service request) with
     | Return v => Return v
     | Throw m => Throw (Some (classify m))
     end).
Proof.
  intros H. unfold review, reviewCode. rewrite H. reflexivity.
Qed.

(** The errors thrown inside the [try] block pass through the [catch]
    block with their message unchanged. *)
Lemma classify_malformed :
  classify (Some MalformedResponseError) = MalformedResponseError.
Proof. vm_compute. reflexivity. Qed.

Lemma classify_empty :
  classify (Some EmptyResponseError) = EmptyResponseError.
Proof. vm_compute. reflexivity. Qed.

(** A payload that parses is the result, whatever its shape. *)
Lemma reviewCode_returns_parsed (text : string) (v : Json.value) :
  Js.truthy_opt apiKey = true ->
  service request = Responded (Some text) ->
  Json.parse text = Some v ->
  review = ([request], Return v).
Proof.
  intros K S P. rewrite (reviewCode_with_key K). rewrite S.
  unfold review_response.
  destruct (Js.truthy text) eqn:T.
  - simpl. now rewrite P.
  - apply truthy_false_iff in T. subst text. discriminate P.
Qed.

(** An empty or absent payload ends in the empty-response error. *)
Lemma reviewCode_empty_payload (text : option string) :
  Js.truthy_opt apiKey = true ->
  service request = Responded text ->
  Js.truthy_opt text = false ->
  review = ([request], Throw (Some EmptyResponseError)).
Proof.
  intros K S E. rewrite (reviewCode_with_key K). rewrite S.
  unfold review_response. destruct text as [t|]; simpl in E.
  - rewrite E. simpl. now rewrite classify_empty.
  - now rewrite classify_empty.
Qed.

End GeminiFacts.

Section GeminiClaims.

Import Gemini.
Local Open Scope list_scope.
Local Open Scope string_scope.

(** C2, as stated, fails: a payload that is valid JSON and lacks the
    required [complexity] object does not conform to the declared schema,
    and [reviewCode] returns it as the result. *)
Lemma review_returns_payload_without_complexity :
  Json.parse Scenario.payload_without_complexity
  = Some Scenario.value_without_complexity
  /\ Json.get "complexity" Scenario.value_without_complexity = None
  /\ Json.conforms responseSchema Scenario.value_without_complexity = false
  /\ snd (reviewCode (Some "key")
            (Scenario.answering (Some Scenario.payload_without_complexity))
            "auto-detect me" "auto" (Some student)
            None None None None None None None)
     = Return Scenario.value_without_complexity.
Proof.
  vm_compute. repeat split.
Qed.

(** C2 (amended): when the service answers a call of [reviewCode] with a
    non-empty payload, the call ends after its one request as [JSON.parse]
    decides. A payload that is not JSON text ends it in the error whose
    message is [MalformedResponseError], without a result; a payload that
    is JSON text is returned as parsed, without a check against the
    declared schema. The message of the malformed-response error differs
    from the messages of the missing-credential, authentication, safety,
    rate-limit, empty-response and default upstream errors. *)
Theorem review_unparseable_payload_fails :
  forall (apiKey : option string) (service : Service)
         (code language : string)
         (mode : option ReviewMode) (targetLanguage : option string)
         (style : option ImplementationStyle) (model : option string)
         (errorLog houseStyle : option string)
         (verbosity : option VerbosityLevel) (tone : option ToneStyle)
         (text : string),
    Js.truthy_opt apiKey = true ->
    service (review_request code language mode targetLanguage style model
                            errorLog houseStyle verbosity tone)
    = Responded (Some text) ->
    text <> "" ->
    let request :=
      review_request code language mode targetLanguage style model
                     errorLog houseStyle verbosity tone in
    let run :=
      reviewCode apiKey service code language mode targetLanguage style
                 model errorLog houseStyle verbosity tone in
    (Json.parse text = None ->
     run = ([request], Throw (Some MalformedResponseError)))
    /\ (forall v : Json.value,
           Json.parse text = Some v -> run = ([request], Return v))
    /\ ~ In MalformedResponseError
            [ MissingCredentialsError; AuthError; SafetyBlockedError;
              RateLimitError; EmptyResponseError; UpstreamError_default ].
Proof.
  intros apiKey service code language mode targetLanguage style model
         errorLog houseStyle verbosity tone text K S N request run.
  split; [|split].
  - intros P. subst run request.
    rewrite (reviewCode_with_key _ _ _ _ _ _ _ _ _ _ _ _ K). rewrite S.
    unfold review_response. apply truthy_true_iff in N. rewrite N. simpl.
    rewrite P. now rewrite classify_malformed.
  - intros v P. subst run request.
    now apply (reviewCode_returns_parsed _ _ _ _ _ _ _ _ _ _ _ _ text v).
  - simpl. intros H.
    repeat (destruct H as [H|H]; [discriminate H|]). exact H.
Qed.

Lemma review_unparseable_payload_fails_witness :
  reviewCode (Some "key") (Scenario.answering (Some "Sorry, I cannot."))
             "auto-detect me" "auto" (Some student)
             None None None None None None None
  = ([review_request "auto-detect me" "auto" (Some student)
                     None None None None None None None],
     Throw (Some MalformedResponseError)).
Proof.
  apply (review_unparseable_payload_fails (Some "key")
           (Scenario.answering (Some "Sorry, I cannot."))
           "auto-detect me" "auto" (Some student)
           None None None None None None None "Sorry, I cannot.");
    [ reflexivity | reflexivity | discriminate | vm_compute; reflexivity ].
Defined.

(** C6: without a credential (the variable unset, or set to the empty
    string) [reviewCode], and [chatWithCode] as well, ends at once in the
    error whose message is [MissingCredentialsError], and issues no call to
    the service. *)
Theorem no_credential_no_call :
  forall (apiKey : option string) (service : Service)
         (code language question : string)
         (mode : option ReviewMode) (targetLanguage : option string)
         (style : option ImplementationStyle) (model : option string)
         (errorLog houseStyle : option string)
         (verbosity : option VerbosityLevel) (tone : option ToneStyle)
         (history : option (list Content)),
    Js.truthy_opt apiKey = false ->
    reviewCode apiKey service code language mode targetLanguage style model
               errorLog houseStyle verbosity tone
    = ([], Throw (Some MissingCredentialsError))
    /\ chatWithCode apiKey service code question history model errorLog
       = ([], Throw (Some MissingCredentialsError)).
Proof.
  intros apiKey service code language question mode targetLanguage style
         model errorLog houseStyle verbosity tone history H.
  unfold reviewCode, chatWithCode. rewrite H. split; reflexivity.
Qed.

Lemma no_credential_no_call_witness :
  reviewCode None (Scenario.answering (Some Scenario.payload_complete))
             "auto-detect me" "auto" (Some student)
             None None None None None None None
  = ([], Throw (Some MissingCredentialsError))
  /\ chatWithCode None
       (Scenario.answering (Some Scenario.payload_complete))
       "auto-detect me" "What does it do?" None None None
     = ([], Throw (Some MissingCredentialsError)).
Proof.
  apply (no_credential_no_call None
           (Scenario.answering (Some Scenario.payload_complete))
           "auto-detect me" "auto" "What does it do?" (Some student)
           None None None None None None None None).
  reflexivity.
Defined.

(** C7, as stated, fails when the language is left to be detected. The
    source language that the target is compared with is the argument of the
    call, which is then ["auto"]: a call for Python code with
    [language = "auto"] and [targetLanguage = "python"], answered with
    [detectedLanguage = "python"], has a target equal to the detected
    source language, and the one request it sent asks for a conversion to
    Python. *)
Lemma conversion_requested_for_detected_language :
  let run :=
    reviewCode (Some "key")
               (Scenario.answering (Some Scenario.payload_complete))
               "print(1)" "auto" (Some student) (Some "python")
               None None None None None None in
  (exists v : Json.value,
      snd run = Return v
      /\ Json.get "detectedLanguage" v = Some (Json.JString "python"))
  /\ isConversion (Some "python") "auto" = true
  /\ (exists p : GenerateContentParameters,
         fst run = [GenerateContent p]
         /\ contents p
            = lines (review_prompt_lines "print(1)" "auto" student
                       (Some "python") default "" "" normal professional))
  /\ nth 4 (review_prompt_lines "print(1)" "auto" student (Some "python")
                                default "" "" normal professional) ""
     = "      TARGET LANGUAGE FOR CONVERSION: python. You MUST convert the code to python while optimizing it.".
Proof.
  split.
  - eexists. split; [vm_compute; reflexivity | vm_compute; reflexivity].
  - split; [reflexivity|]. split; [|reflexivity].
    eexists. split; reflexivity.
Qed.

(** C7 (amended): a call of [reviewCode] with a credential sends one
    request, whose prompt is the lines of the template. The request asks
    for a conversion if and only if [targetLanguage] is given, is not
    empty, is not ["none"] and differs from the [language] argument of the
    call (["auto"] when the language is left to be detected; what the
    service then detects plays no part). Then the fifth line of the prompt
    is the conversion directive for that language and the sixth task
    speaks of the converted code; otherwise the fifth line is blank, the
    sixth task speaks of the optimized code and the request is for a
    review only. *)
Theorem conversion_iff_target_differs :
  forall (apiKey : option string) (service : Service)
         (code language : string) (mode : option ReviewMode)
         (targetLanguage : option string)
         (style : option ImplementationStyle) (model : option string)
         (errorLog houseStyle : option string)
         (verbosity : option VerbosityLevel) (tone : option ToneStyle),
    Js.truthy_opt apiKey = true ->
    exists (p : GenerateContentParameters) (prompt : list string),
      fst (reviewCode apiKey service code language mode targetLanguage
                      style model errorLog houseStyle verbosity tone)
      = [GenerateContent p]
      /\ contents p = lines prompt
      /\ prompt
         = review_prompt_lines code language (or_else mode industry)
             targetLanguage (or_else style default) (or_else errorLog "")
             (or_else houseStyle "") (or_else verbosity normal)
             (or_else tone professional)
      /\ ((exists t : string,
              targetLanguage = Some t /\ t <> "" /\ t <> "none"
              /\ t <> language
              /\ isConversion targetLanguage language = true
              /\ nth 4 prompt ""
                 = "      TARGET LANGUAGE FOR CONVERSION: " ++ t
                   ++ ". You MUST convert the code to " ++ t
                   ++ " while optimizing it."
              /\ nth 49 prompt ""
                 = "      6. Analyze Time, Space, and Cyclomatic complexity of the converted code.")
          \/ (~ (exists t : string,
                    targetLanguage = Some t /\ t <> "" /\ t <> "none"
                    /\ t <> language)
              /\ isConversion targetLanguage language = false
              /\ nth 4 prompt "" = "      "
              /\ nth 49 prompt ""
                 = "      6. Analyze Time, Space, and Cyclomatic complexity of the optimized code.")).
Proof.
  intros apiKey service code language mode targetLanguage style model
         errorLog houseStyle verbosity tone K.
  unfold reviewCode. rewrite K. cbn [negb fst].
  eexists. eexists. split; [reflexivity|]. split; [reflexivity|].
  split; [reflexivity|].
  cbn [nth review_prompt_lines]. unfold conversionDirective.
  destruct (isConversion targetLanguage language) eqn:E.
  - left. unfold isConversion in E. destruct targetLanguage as [t|];
      [|discriminate E].
    apply andb_true_iff in E. destruct E as [E E3].
    apply andb_true_iff in E. destruct E as [E1 E2].
    apply truthy_true_iff in E1.
    apply negb_true_iff, String.eqb_neq in E2, E3.
    exists t. repeat split; assumption || reflexivity.
  - right. split; [|repeat split; reflexivity].
    intros (t & Ht & N1 & N2 & N3). subst targetLanguage.
    unfold isConversion in E.
    apply truthy_true_iff in N1. apply String.eqb_neq in N2, N3.
    rewrite N1, N2, N3 in E. discriminate E.
Qed.

Lemma conversion_iff_target_differs_witness :
  exists (p : GenerateContentParameters) (prompt : list string),
    fst (reviewCode (Some "key")
           (Scenario.answering (Some Scenario.payload_complete))
           "print(1)" "python" (Some student) (Some "python")
           None None None None None None)
    = [GenerateContent p]
    /\ contents p = lines prompt
    /\ prompt
       = review_prompt_lines "print(1)" "python"
           (or_else (Some student) industry) (Some "python")
           (or_else None default) (or_else None "") (or_else None "")
           (or_else None normal) (or_else None professional)
    /\ ((exists t : string,
            Some "python" = Some t /\ t <> "" /\ t <> "none"
            /\ t <> "python"
            /\ isConversion (Some "python") "python" = true
            /\ nth 4 prompt ""
               = "      TARGET LANGUAGE FOR CONVERSION: " ++ t
                 ++ ". You MUST convert the code to " ++ t
                 ++ " while optimizing it."
            /\ nth 49 prompt ""
               = "      6. Analyze Time, Space, and Cyclomatic complexity of the converted code.")
        \/ (~ (exists t : string,
                  Some "python" = Some t /\ t <> "" /\ t <> "none"
                  /\ t <> "python")
            /\ isConversion (Some "python") "python" = false
            /\ nth 4 prompt "" = "      "
            /\ nth 49 prompt ""
               = "      6. Analyze Time, Space, and Cyclomatic complexity of the optimized code.")).
Proof.
  apply (conversion_iff_target_differs (Some "key")
           (Scenario.answering (Some Scenario.payload_complete))
           "print(1)" "python" (Some student) (Some "python")
           None None None None None None).
  reflexivity.
Defined.

(** C8: [mapModel] is the lookup in a fixed table of four entries, whose
    concrete names are Gemini models, three of them the same one; an
    identifier that is not in the table is returned as it is. *)
Theorem mapModel_is_table_lookup :
  (forall model : string,
      mapModel model
      = match table_lookup model model_table with
        | Some concrete => concrete
        | None => model
        end)
  /\ map fst model_table
     = ["claude-4"; "gpt-5"; "microsoft-copilot"; "github-copilot"]
  /\ map mapModel
         ["claude-4"; "gpt-5"; "microsoft-copilot"; "github-copilot"]
     = ["gemini-3-flash-preview"; "gemini-3.1-pro-preview";
        "gemini-3.1-pro-preview"; "gemini-3.1-pro-preview"]
  /\ (forall model : string,
         ~ In model (map fst model_table) -> mapModel model = model).
Proof.
  assert (L : forall model : string,
      mapModel model
      = match table_lookup model model_table with
        | Some concrete => concrete
        | None => model
        end).
  { intros model. unfold mapModel, model_table, table_lookup.
    rewrite (String.eqb_sym model "claude-4"), (String.eqb_sym model "gpt-5"),
      (String.eqb_sym model "microsoft-copilot"),
      (String.eqb_sym model "github-copilot").
    repeat match goal with
           | |- context [String.eqb ?a model] =>
               destruct (String.eqb a model); [reflexivity|]
           end.
    reflexivity. }
  split; [exact L|]. split; [reflexivity|]. split; [reflexivity|].
  intros model N. unfold mapModel.
  repeat match goal with
         | |- context [String.eqb model ?a] =>
             destruct (String.eqb_spec model a) as [E|_];
             [exfalso; apply N; subst model; simpl; tauto|]
         end.
  reflexivity.
Qed.

Lemma mapModel_is_table_lookup_witness :
  mapModel "gemini-3.1-pro-preview" = "gemini-3.1-pro-preview"
  /\ mapModel "llama-3" = "llama-3".
Proof.
  split;
    apply (proj2 (proj2 (proj2 mapModel_is_table_lookup)));
    simpl; intros H;
    repeat (destruct H as [H|H]; [discriminate H|]); exact H.
Defined.

(** C9: when [chatWithCode] has a credential and the service answers its
    one request, an absent or empty answer text makes the call return the
    fixed fallback string, and any other answer text is returned as it
    is. *)
Theorem chat_returns_answer_or_fallback :
  forall (apiKey : option string) (service : Service)
         (code question : string) (history : option (list Content))
         (model errorLog : option string) (text : option string),
    Js.truthy_opt apiKey = true ->
    service (chat_request code question history model errorLog)
    = Responded text ->
    exists answer : string,
      chatWithCode apiKey service code question history model errorLog
      = ([chat_request code question history model errorLog], Return answer)
      /\ (Js.truthy_opt text = false -> answer = chat_fallback)
      /\ (forall t : string, text = Some t -> t <> "" -> answer = t).
Proof.
  intros apiKey service code question history model errorLog text K S.
  exists (Js.or_default text chat_fallback).
  unfold chatWithCode. rewrite K, S. simpl. split; [reflexivity|]. split.
  - intros E. destruct text as [t|]; simpl in *; [now rewrite E | reflexivity].
  - intros t -> N. simpl. apply truthy_true_iff in N. now rewrite N.
Qed.

Lemma chat_returns_answer_or_fallback_witness :
  (exists answer : string,
      chatWithCode (Some "key") (Scenario.answering None)
                   "print(1)" "What does it do?" None None None
      = ([chat_request "print(1)" "What does it do?" None None None],
         Return answer)
      /\ (Js.truthy_opt None = false -> answer = chat_fallback)
      /\ (forall t : string, None = Some t -> t <> "" -> answer = t))
  /\ (exists answer : string,
         chatWithCode (Some "key") (Scenario.answering (Some "It prints 1."))
                      "print(1)" "What does it do?" None None None
         = ([chat_request "print(1)" "What does it do?" None None None],
            Return answer)
         /\ (Js.truthy_opt (Some "It prints 1.") = false
             -> answer = chat_fallback)
         /\ (forall t : string,
                Some "It prints 1." = Some t -> t <> "" -> answer = t)).
Proof.
  split.
  - apply (chat_returns_answer_or_fallback (Some "key")
             (Scenario.answering None) "print(1)" "What does it do?"
             None None None None); reflexivity.
  - apply (chat_returns_answer_or_fallback (Some "key")
             (Scenario.answering (Some "It prints 1.")) "print(1)"
             "What does it do?" None None None (Some "It prints 1."));
      reflexivity.
Defined.

End GeminiClaims.

(* ================================================================== *)
(** * Further properties of the history store *)

Section HistoryMore.

Import History HistoryInv.
Local Open Scope list_scope.

(** X1: A call appends at most one row and touches no stored row; the
    [inserted] flag of the answer is true exactly when a row was appended.
    The appended row takes the next rowid and the clock reading. *)
Theorem post_appends_at_most_one :
  forall (now : string) (body : Req.Body) (st : Store),
    (rows (snd (post_history now body st)) = rows st
     /\ fst (post_history now body st) <> Post200 true true)
    \/ (exists r : Row,
           rows (snd (post_history now body st)) = rows st ++ [r]
           /\ seq (snd (post_history now body st)) = (seq st + 1)%Z
           /\ fst (post_history now body st) = Post200 true true
           /\ id r = (seq st + 1)%Z
           /\ timestamp r = now
           /\ Req.originalCode body = Some (originalCode r)
           /\ Req.improvedCode body = Some (improvedCode r)).
Proof.
  intros now body st.
  destruct (Req.originalCode body) as [o|] eqn:Ho.
  2:{ left. rewrite post_rejected; [split; [reflexivity | discriminate]|].
      rewrite Ho. now left. }
  destruct (Req.improvedCode body) as [i|] eqn:Hi.
  2:{ left. rewrite post_rejected; [split; [reflexivity | discriminate]|].
      rewrite Hi. now right. }
  destruct (Js.truthy o) eqn:To.
  2:{ left. rewrite post_rejected; [split; [reflexivity | discriminate]|].
      rewrite Ho. now left. }
  destruct (Js.truthy i) eqn:Ti.
  2:{ left. rewrite post_rejected; [split; [reflexivity | discriminate]|].
      rewrite Hi. now right. }
  apply truthy_true_iff in To, Ti.
  destruct (has_hash (Sha256.hex (o ++ i)%string) st) eqn:Hh.
  - left. rewrite (post_present now body st o i) by assumption.
    split; [reflexivity | discriminate].
  - right. exists (written_row now body o i (seq st + 1)).
    rewrite (post_absent now body st o i) by assumption.
    repeat split.
Qed.

(** X2: A body that lacks [originalCode] or [improvedCode] is answered with
    status 400 and the store stays as it was. *)
Theorem record_rejects_missing_field :
  forall (st : Store) (now : string) (body : Req.Body),
    Req.originalCode body = None \/ Req.improvedCode body = None ->
    post_history now body st = (Post400 "Missing required fields", st).
Proof.
  intros st now body H. apply post_rejected.
  destruct H as [H|H]; rewrite H; [now left | now right].
Qed.

Lemma record_rejects_missing_field_witness :
  post_history Scenario.t0
    (Req.mkBody (Some "function f(){}") None (Some "javascript") None)
    empty
  = (Post400 "Missing required fields", empty).
Proof.
  apply (record_rejects_missing_field empty Scenario.t0
           (Req.mkBody (Some "function f(){}") None (Some "javascript")
                       None)).
  right. reflexivity.
Defined.

Lemma post_keeps_rows_well_formed now body st :
  Forall row_well_formed (rows st) ->
  Forall row_well_formed (rows (snd (post_history now body st))).
Proof.
  intros W. destruct (post_cases now body st)
    as [[E _] | (o & i & _ & _ & No & Ni & _ & E)]; rewrite E; [assumption|].
  simpl. apply Forall_app. split; [assumption|].
  constructor; [|constructor]. repeat split; assumption.
Qed.

Lemma sorted_snoc (l : list Z) (x : Z) :
  StronglySorted Z.lt l -> Forall (fun y => (y < x)%Z) l ->
  StronglySorted Z.lt (l ++ [x]).
Proof.
  induction l as [|y l IH]; intros S F; simpl.
  - constructor; constructor.
  - inversion S as [|y' l' Sl Fy]; subst.
    inversion F as [|y' l' Hy Fl]; subst.
    constructor; [now apply IH|].
    apply Forall_app. split; [assumption | now constructor].
Qed.

Lemma post_keeps_ids_increasing now body st :
  ids_increasing st -> ids_increasing (snd (post_history now body st)).
Proof.
  intros (S & B & P). destruct (post_cases now body st)
    as [[E L] | (o & i & _ & _ & _ & _ & _ & E)].
  - unfold ids_increasing. rewrite E. split; [exact S|]. split; [|lia].
    eapply Forall_impl; [|exact B]. simpl. intros r Hr. lia.
  - rewrite E. unfold ids_increasing. simpl. split; [|split; [|lia]].
    + rewrite map_app. simpl. apply sorted_snoc; [exact S|].
      rewrite Forall_map. eapply Forall_impl; [|exact B].
      simpl. intros r Hr. lia.
    + apply Forall_app. split.
      * eapply Forall_impl; [|exact B]. simpl. intros r Hr. lia.
      * constructor; [simpl; lia | constructor].
Qed.

(** The counter moves by one exactly in the calls that reach the
    [INSERT]. *)
Lemma post_counter now body st :
  seq (snd (post_history now body st))
  = (seq st + if reaches_insert (now, body) then 1 else 0)%Z.
Proof.
  unfold reaches_insert, post_history, insert_or_ignore, Js.truthy_opt.
  simpl.
  destruct (Req.originalCode body) as [o|], (Req.improvedCode body) as [i|];
    simpl; try lia.
  - destruct (Js.truthy o), (Js.truthy i); simpl; try lia;
      destruct (has_hash _ st); simpl; lia.
  - destruct (Js.truthy o); simpl; lia.
Qed.

Lemma run_posts_counter calls st :
  seq (run_posts calls st)
  = (seq st + Z.of_nat (List.length (filter reaches_insert calls)))%Z.
Proof.
  revert st. induction calls as [|[now body] calls IH]; intros st.
  - simpl. lia.
  - change (run_posts ((now, body) :: calls) st)
      with (run_posts calls (snd (post_history now body st))).
    rewrite IH, post_counter. simpl filter.
    destruct (reaches_insert (now, body)); simpl List.length; lia.
Qed.

(** X3: In every store that calls of the route build from the empty table:
    each row holds a non-empty pair and the digest of its concatenation,
    no two rows share a hash, the rowids grow strictly in the order of
    insertion and lie between 1 and the counter, and the counter stands at
    the number of calls that reached the [INSERT], ignored ones included
    (an ignored insert uses up a rowid). *)
Theorem reachable_store_invariant :
  forall calls : list (string * Req.Body),
    let st := run_posts calls empty in
    Forall row_well_formed (rows st)
    /\ NoDup (map hash (rows st))
    /\ StronglySorted Z.lt (map id (rows st))
    /\ Forall (fun r => (1 <= id r <= seq st)%Z) (rows st)
    /\ seq st = Z.of_nat (List.length (filter reaches_insert calls)).
Proof.
  intros calls st. subst st.
  assert (G : forall cs s,
             Forall row_well_formed (rows s) /\ ids_increasing s ->
             Forall row_well_formed (rows (run_posts cs s))
             /\ ids_increasing (run_posts cs s)).
  { induction cs as [|c cs IH]; intros s [W C]; simpl; [now split|].
    apply IH. split;
      [now apply post_keeps_rows_well_formed
      | now apply post_keeps_ids_increasing]. }
  destruct (G calls empty) as (W & S & B & _).
  { split; [constructor | split; [constructor | split; [constructor|]]].
    simpl. lia. }
  split; [exact W|]. split; [apply run_posts_invariant, empty_invariant|].
  split; [exact S|]. split; [exact B|].
  rewrite run_posts_counter. reflexivity.
Qed.

(** Insert, duplicate, insert: the second row is stored under rowid 3. *)
Example ignored_insert_leaves_gap :
  let st :=
    run_posts [ (Scenario.t0, Scenario.pair "a" "b");
                (Scenario.t0, Scenario.pair "a" "b");
                (Scenario.t1, Scenario.pair "a" "c") ] empty in
  map id (rows st) = [1; 3]%Z /\ seq st = 3%Z.
Proof. vm_compute. split; reflexivity. Qed.

Lemma post_stored_or_rejected now body st :
  (forall o i, Req.originalCode body = Some o ->
               Req.improvedCode body = Some i -> o <> "" -> i <> "" ->
               has_hash (Sha256.hex (o ++ i)%string) st = true) ->
  rows (snd (post_history now body st)) = rows st.
Proof.
  intros H. destruct (post_cases now body st)
    as [[E _] | (o & i & Ho & Hi & No & Ni & Hh & _)]; [exact E|].
  rewrite (H o i Ho Hi No Ni) in Hh. discriminate Hh.
Qed.

Lemma run_posts_app cs1 cs2 st :
  run_posts (cs1 ++ cs2) st = run_posts cs2 (run_posts cs1 st).
Proof. unfold run_posts. apply fold_left_app. Qed.

Lemma run_posts_stores_pairs cs st : pairs_stored cs (run_posts cs st).
Proof.
  revert st. induction cs as [|c cs IH]; intros st; [constructor|].
  simpl. constructor.
  - intros o i Ho Hi No Ni. apply run_posts_keeps_hash.
    now apply (post_stores_hash (fst c) (snd c) st o i).
  - apply IH.
Qed.

Lemma pairs_stored_rows cs st st' :
  rows st' = rows st -> pairs_stored cs st -> pairs_stored cs st'.
Proof.
  intros E P. unfold pairs_stored in *.
  eapply Forall_impl; [|exact P]. simpl. intros c H o i Ho Hi No Ni.
  rewrite (has_hash_rows _ _ _ E). now apply H.
Qed.

Lemma run_posts_stored_noop cs st :
  pairs_stored cs st -> rows (run_posts cs st) = rows st.
Proof.
  revert st. induction cs as [|c cs IH]; intros st P; [reflexivity|].
  inversion P as [|c' cs' Hc Hcs]; subst. simpl.
  pose proof (post_stored_or_rejected (fst c) (snd c) st Hc) as E.
  rewrite IH; [exact E|]. now apply (pairs_stored_rows cs st).
Qed.

(** X4: Replaying a sequence of calls, at other times and with other
    languages or complexities, writes no row: every pair of the replay is
    rejected again or found stored, and the table holds exactly the rows
    that the first pass left. *)
Theorem replay_changes_nothing :
  forall (calls replay : list (string * Req.Body)) (st : Store),
    Forall2 same_pairs calls replay ->
    rows (run_posts (calls ++ replay) st) = rows (run_posts calls st).
Proof.
  intros calls replay st F. rewrite run_posts_app.
  apply run_posts_stored_noop.
  pose proof (run_posts_stores_pairs calls st) as P.
  unfold pairs_stored in *. remember (run_posts calls st) as st'.
  clear Heqst'. induction F as [|c1 c2 l1 l2 [Eo Ei] F IH]; [constructor|].
  inversion P as [|c' cs' Hc Hcs]; subst. constructor.
  - intros o i Ho Hi. apply Hc; congruence.
  - now apply IH.
Qed.

Lemma replay_changes_nothing_witness :
  rows
    (run_posts
       ([ (Scenario.t0, Scenario.pair "function f(){}" "const f=()=>{};");
          (Scenario.t0, Scenario.pair "" "x") ]
        ++ [ (Scenario.t1,
              Scenario.pair_with "function f(){}" "const f=()=>{};"
                                 "javascript" Scenario.linear);
             (Scenario.t1, Scenario.pair_with "" "x" "c" Scenario.linear) ])
       empty)
  = rows
      (run_posts
         [ (Scenario.t0, Scenario.pair "function f(){}" "const f=()=>{};");
           (Scenario.t0, Scenario.pair "" "x") ]
         empty).
Proof.
  apply (replay_changes_nothing
           [ (Scenario.t0, Scenario.pair "function f(){}" "const f=()=>{};");
             (Scenario.t0, Scenario.pair "" "x") ]
           [ (Scenario.t1,
              Scenario.pair_with "function f(){}" "const f=()=>{};"
                                 "javascript" Scenario.linear);
             (Scenario.t1, Scenario.pair_with "" "x" "c" Scenario.linear) ]
           empty).
  repeat constructor.
Defined.

(** ** Listing after recording *)

Lemma order_by_length (l : list Row) :
  List.length (order_by_timestamp_desc l) = List.length l.
Proof. symmetry. apply Permutation_length, order_by_perm. Qed.

Lemma select_all_when_small (st : Store) :
  List.length (rows st) <= 100 -> Permutation (rows st) (select_history st).
Proof.
  intros L. unfold select_history.
  rewrite firstn_all2 by (rewrite order_by_length; exact L).
  apply order_by_perm.
Qed.

(** X5: The listing holds [min 100 n] of the [n] rows; up to 100 rows it holds
    every row of the table. *)
Theorem list_holds_all_rows_up_to_100 :
  forall st : Store,
    List.length (select_history st) = Nat.min 100 (List.length (rows st))
    /\ (List.length (rows st) <= 100 ->
        Permutation (rows st) (select_history st)).
Proof.
  intros st. split.
  - unfold select_history. rewrite length_firstn, order_by_length.
    reflexivity.
  - apply select_all_when_small.
Qed.

(** X6: The listing and the rows that the limit leaves out make up the table,
    and no row left out is newer than a row listed. *)
Theorem listing_leaves_out_oldest :
  forall st : Store,
    exists cut : list Row,
      Permutation (rows st) (select_history st ++ cut)
      /\ forall old r : Row,
           In old cut -> In r (select_history st) -> desc r old.
Proof.
  intros st. exists (skipn 100 (order_by_timestamp_desc (rows st))).
  unfold select_history. split.
  - rewrite firstn_skipn. apply order_by_perm.
  - intros old r Hold Hr.
    pose proof (order_by_sorted (rows st)) as S.
    rewrite <- (firstn_skipn 100 (order_by_timestamp_desc (rows st))) in S.
    revert Hr Hold S.
    generalize (firstn 100 (order_by_timestamp_desc (rows st))) as kept.
    generalize (skipn 100 (order_by_timestamp_desc (rows st))) as cut.
    intros cut kept. induction kept as [|x kept IH]; intros Hr Hold S.
    + destruct Hr.
    + simpl in S. inversion S as [|x' l' Sl Fx]; subst.
      destruct Hr as [<-|Hr].
      * rewrite Forall_forall in Fx. apply Fx, in_or_app. now right.
      * now apply IH.
Qed.

(** X7: Record, then list: while the table holds fewer than 100 rows, the
    listing after an accepted call shows a row under the hash of the pair;
    when the hash was new, that row is the one the call wrote. *)
Theorem recorded_pair_is_listed :
  forall (st : Store) (now : string) (body : Req.Body) (o i : string),
    Req.originalCode body = Some o -> Req.improvedCode body = Some i ->
    o <> "" -> i <> "" ->
    List.length (rows st) < 100 ->
    let listing := select_history (snd (post_history now body st)) in
    (exists r : Row,
        In r listing /\ hash r = Sha256.hex (o ++ i)%string)
    /\ (has_hash (Sha256.hex (o ++ i)%string) st = false ->
        In (written_row now body o i (seq st + 1)) listing).
Proof.
  intros st now body o i Ho Hi No Ni L listing.
  assert (L' : List.length (rows (snd (post_history now body st))) <= 100).
  { destruct (post_cases now body st)
      as [[E _] | (o' & i' & _ & _ & _ & _ & _ & E)]; rewrite E; [lia|].
    simpl. rewrite length_app. simpl. lia. }
  pose proof (select_all_when_small _ L') as P.
  split.
  - pose proof (post_stores_hash now body st o i Ho Hi No Ni) as S.
    apply has_hash_In, in_map_iff in S. destruct S as (r & Hr & Hin).
    exists r. split; [|exact Hr].
    subst listing. eapply Permutation_in; [exact P | exact Hin].
  - intros A. subst listing. eapply Permutation_in; [exact P|].
    rewrite (post_absent now body st o i) by assumption. simpl.
    apply in_or_app. right. now left.
Qed.

Lemma recorded_pair_is_listed_witness :
  let body := Scenario.pair "function f(){}" "const f=()=>{};" in
  let listing :=
    select_history (snd (post_history Scenario.t0 body empty)) in
  (exists r : Row,
      In r listing
      /\ hash r = Sha256.hex ("function f(){}" ++ "const f=()=>{};")%string)
  /\ (has_hash (Sha256.hex ("function f(){}" ++ "const f=()=>{};")%string)
               empty = false ->
      In (written_row Scenario.t0 body "function f(){}" "const f=()=>{};"
                      (seq empty + 1)) listing).
Proof.
  apply (recorded_pair_is_listed empty Scenario.t0
           (Scenario.pair "function f(){}" "const f=()=>{};")
           "function f(){}" "const f=()=>{};");
    [ reflexivity | reflexivity | discriminate | discriminate
    | simpl; lia ].
Defined.

Lemma older_not_newer_or_equal (x r : Row) :
  older_than (timestamp r) x -> newer_or_equal x r = false.
Proof.
  unfold older_than, newer_or_equal, String.ltb, String.leb.
  rewrite (String.compare_antisym (timestamp x) (timestamp r)).
  destruct (String.compare (timestamp r) (timestamp x)); simpl; congruence.
Qed.

Lemma order_by_newest_last (l : list Row) (r : Row) :
  Forall (older_than (timestamp r)) l ->
  order_by_timestamp_desc (l ++ [r]) = r :: order_by_timestamp_desc l.
Proof.
  induction l as [|x l IH]; intros F; [reflexivity|].
  inversion F as [|x' l' Hx Hl]; subst.
  unfold order_by_timestamp_desc in *. simpl. rewrite (IH Hl). simpl.
  now rewrite (older_not_newer_or_equal x r Hx).
Qed.

(** X8: A new pair recorded at a time after every stored timestamp heads the
    listing, followed by the first 99 rows of the listing before. *)
Theorem newest_record_is_listed_first :
  forall (st : Store) (now : string) (body : Req.Body) (o i : string),
    Req.originalCode body = Some o -> Req.improvedCode body = Some i ->
    o <> "" -> i <> "" ->
    has_hash (Sha256.hex (o ++ i)%string) st = false ->
    Forall (older_than now) (rows st) ->
    select_history (snd (post_history now body st))
    = written_row now body o i (seq st + 1)
        :: firstn 99 (select_history st).
Proof.
  intros st now body o i Ho Hi No Ni A F.
  rewrite (post_absent now body st o i) by assumption.
  unfold select_history. simpl rows.
  rewrite order_by_newest_last by exact F.
  change 100 with (S 99). rewrite firstn_cons. f_equal.
  rewrite firstn_firstn. reflexivity.
Qed.

Lemma newest_record_is_listed_first_witness :
  let st :=
    snd (post_history Scenario.t0
           (Scenario.pair "function f(){}" "function f(){}") empty) in
  let body := Scenario.pair "function f(){}" "const f=()=>{};" in
  select_history (snd (post_history Scenario.t1 body st))
  = written_row Scenario.t1 body "function f(){}" "const f=()=>{};"
                (seq st + 1)
      :: firstn 99 (select_history st).
Proof.
  apply (newest_record_is_listed_first
           (snd (post_history Scenario.t0
                   (Scenario.pair "function f(){}" "function f(){}") empty))
           Scenario.t1
           (Scenario.pair "function f(){}" "const f=()=>{};")
           "function f(){}" "const f=()=>{};");
    [ reflexivity | reflexivity | discriminate | discriminate
    | vm_compute; reflexivity | vm_compute; repeat constructor ].
Defined.

(** X9: Record into the empty table, then list: the listing is the one row,
    under rowid 1, with the pair, the clock reading, and the labels of the
    body where they are non-empty text, ["unknown"] and [0] where they are
    absent or empty. *)
Theorem first_record_round_trip :
  forall (now : string) (body : Req.Body) (o i : string),
    Req.originalCode body = Some o -> Req.improvedCode body = Some i ->
    o <> "" -> i <> "" ->
    exists r : Row,
      get_history (snd (post_history now body empty)) = Get200 [r]
      /\ id r = 1%Z /\ originalCode r = o /\ improvedCode r = i
      /\ timestamp r = now
      /\ hash r = Sha256.hex (o ++ i)%string
      /\ language r
         = match Req.language body with
           | Some (String c l) => String c l
           | _ => "unknown"
           end
      /\ (Req.complexity body = None ->
          timeComplexity r = "unknown" /\ spaceComplexity r = "unknown"
          /\ cyclomaticComplexity r = 0%Z).
Proof.
  intros now body o i Ho Hi No Ni.
  exists (written_row now body o i 1).
  rewrite (post_absent now body empty o i) by (assumption || reflexivity).
  split; [reflexivity|]. repeat (split; [reflexivity|]). split.
  - simpl. destruct (Req.language body) as [[|c l]|]; reflexivity.
  - intros C. simpl. unfold complexity_time, complexity_space,
      complexity_cyclomatic. rewrite C. repeat split.
Qed.

Lemma first_record_round_trip_witness :
  exists r : Row,
    get_history
      (snd (post_history Scenario.t0
              (Scenario.pair "function f(){}" "const f=()=>{};") empty))
    = Get200 [r]
    /\ id r = 1%Z /\ originalCode r = "function f(){}"
    /\ improvedCode r = "const f=()=>{};"
    /\ timestamp r = Scenario.t0
    /\ hash r = Sha256.hex ("function f(){}" ++ "const f=()=>{};")%string
    /\ language r
       = match Req.language
                 (Scenario.pair "function f(){}" "const f=()=>{};") with
         | Some (String c l) => String c l
         | _ => "unknown"
         end
    /\ (Req.complexity (Scenario.pair "function f(){}" "const f=()=>{};")
        = None ->
        timeComplexity r = "unknown" /\ spaceComplexity r = "unknown"
        /\ cyclomaticComplexity r = 0%Z).
Proof.
  apply (first_record_round_trip Scenario.t0
           (Scenario.pair "function f(){}" "const f=()=>{};")
           "function f(){}" "const f=()=>{};");
    [ reflexivity | reflexivity | discriminate | discriminate ].
Defined.

End HistoryMore.

(* ================================================================== *)
(** * Further properties of the review request builder *)

Section GeminiMore.

Import Gemini.
Local Open Scope list_scope.
Local Open Scope string_scope.

(** ** [includes] finds exactly the substrings *)

Lemma string_app_assoc (a b c : string) : (a ++ b) ++ c = a ++ b ++ c.
Proof. induction a as [|x a IH]; simpl; [reflexivity | now rewrite IH]. Qed.

Lemma string_app_nil (a : string) : a ++ "" = a.
Proof. induction a as [|x a IH]; simpl; [reflexivity | now rewrite IH]. Qed.

Lemma prefix_app (p b : string) : String.prefix p (p ++ b) = true.
Proof.
  induction p as [|c p IH]; simpl; [now destruct b|].
  destruct (ascii_dec c c) as [_|N]; [exact IH | now contradiction N].
Qed.

Lemma prefix_split (p s : string) :
  String.prefix p s = true -> exists b, s = p ++ b.
Proof.
  revert s. induction p as [|c p IH]; intros s H.
  - exists s. reflexivity.
  - destruct s as [|d s]; simpl in H; [discriminate H|].
    destruct (ascii_dec c d) as [E|_]; [|discriminate H]. subst d.
    destruct (IH s H) as [b Hb]. exists b. simpl. now rewrite <- Hb.
Qed.

Lemma includes_unfold (s sub : string) :
  includes s sub
  = if String.prefix sub s then true
    else match s with
         | EmptyString => false
         | String _ s' => includes s' sub
         end.
Proof. destruct s; reflexivity. Qed.

Lemma includes_mentions (s sub : string) :
  includes s sub = true <-> exists a b, s = a ++ sub ++ b.
Proof.
  split.
  - induction s as [|c s IH]; rewrite includes_unfold;
      destruct (String.prefix sub _) eqn:P; intros H;
      try discriminate H.
    + destruct (prefix_split _ _ P) as [b Hb]. exists "", b. exact Hb.
    + destruct (prefix_split _ _ P) as [b Hb]. exists "", b. exact Hb.
    + destruct (IH H) as (a & b & E). exists (String c a), b.
      simpl. now rewrite E.
  - intros (a & b & E). subst s. induction a as [|c a IH].
    + simpl. rewrite includes_unfold, prefix_app. reflexivity.
    + change (String c a ++ sub ++ b) with (String c (a ++ sub ++ b)).
      rewrite includes_unfold, IH.
      now destruct (String.prefix sub (String c (a ++ sub ++ b))).
Qed.

Lemma includes_concat_nth (sep x : string) (l : list string) (n : nat) :
  (n < List.length l)%nat ->
  includes (nth n l "") x = true ->
  includes (String.concat sep l) x = true.
Proof.
  revert n. induction l as [|e l IH]; intros n L H; [simpl in L; lia|].
  destruct n as [|n].
  - simpl in H. apply includes_mentions in H. destruct H as (a & b & E).
    apply includes_mentions. destruct l as [|e' l'].
    + exists a, b. exact E.
    + exists a, (b ++ sep ++ String.concat sep (e' :: l')).
      change (String.concat sep (e :: e' :: l'))
        with (e ++ sep ++ String.concat sep (e' :: l')).
      rewrite E. now rewrite !string_app_assoc.
  - simpl in L, H. assert (L' : (n < List.length l)%nat) by lia.
    specialize (IH n L' H). apply includes_mentions in IH.
    destruct IH as (a & b & E). apply includes_mentions.
    destruct l as [|e' l']; [simpl in L'; lia|].
    exists (e ++ sep ++ a), b.
    change (String.concat sep (e :: e' :: l'))
      with (e ++ sep ++ String.concat sep (e' :: l')).
    rewrite E. now rewrite !string_app_assoc.
Qed.

Lemma includes_opt_mentions (m : option string) (sub : string) :
  includes_opt m sub = true <-> exists s, m = Some s /\ Text.mentions s sub.
Proof.
  destruct m as [s|]; simpl.
  - rewrite includes_mentions. split.
    + intros H. exists s. now split.
    + intros (s' & E & H). now inversion E; subst.
  - split; [discriminate | intros (s & E & _); discriminate E].
Qed.

Lemma includes_opt_false (m : option string) (sub : string) :
  (forall s, m = Some s -> ~ Text.mentions s sub) ->
  includes_opt m sub = false.
Proof.
  intros H. destruct (includes_opt m sub) eqn:E; [|reflexivity].
  apply includes_opt_mentions in E. destruct E as (s & Es & M).
  now destruct (H s Es).
Qed.

(** ** Failures of [reviewCode] *)

Lemma classify_nonempty (m : option string) : classify m <> "".
Proof.
  unfold classify.
  destruct (includes_opt m "API key"); [discriminate|].
  destruct (includes_opt m "safety"); [discriminate|].
  destruct (includes_opt m "quota" || includes_opt m "429");
    [discriminate|].
  destruct m as [[|c s]|]; simpl; discriminate.
Qed.

Lemma reviewCode_throws_nonempty
  (apiKey : option string) (service : Service) (code language : string)
  (mode : option ReviewMode) (targetLanguage : option string)
  (style : option ImplementationStyle) (model : option string)
  (errorLog houseStyle : option string)
  (verbosity : option VerbosityLevel) (tone : option ToneStyle)
  (m : option string) :
  snd (reviewCode apiKey service code language mode targetLanguage style
                  model errorLog houseStyle verbosity tone) = Throw m ->
  exists s : string, m = Some s /\ s <> "".
Proof.
  unfold reviewCode. destruct (Js.truthy_opt apiKey); simpl; intros H.
  - destruct (review_response _) as [v|m']; [discriminate H|].
    inversion H; subst. eexists. split; [reflexivity|].
    apply classify_nonempty.
  - inversion H; subst. eexists. split; [reflexivity | discriminate].
Qed.

(** X10: Whatever the credential, the service and the arguments, [reviewCode]
    issues at most one request, and when it fails the error it throws
    carries a message that is not empty. *)
Theorem review_fails_with_message :
  forall (apiKey : option string) (service : Service)
         (code language : string)
         (mode : option ReviewMode) (targetLanguage : option string)
         (style : option ImplementationStyle) (model : option string)
         (errorLog houseStyle : option string)
         (verbosity : option VerbosityLevel) (tone : option ToneStyle),
    let run :=
      reviewCode apiKey service code language mode targetLanguage style
                 model errorLog houseStyle verbosity tone in
    (List.length (fst run) <= 1)%nat
    /\ forall m : option string,
         snd run = Throw m -> exists s : string, m = Some s /\ s <> "".
Proof.
  intros apiKey service code language mode targetLanguage style model
         errorLog houseStyle verbosity tone run.
  subst run. split.
  - unfold reviewCode. destruct (Js.truthy_opt apiKey); simpl; lia.
  - intros m H. eapply reviewCode_throws_nonempty. exact H.
Qed.

(** X11: When the call to the service fails, the message of the error decides
    what [reviewCode] reports, in this order: a message that mentions
    ["API key"] gives the authentication error, whatever else it
    mentions; else one that mentions ["safety"] gives the safety error;
    else one that mentions ["quota"] or ["429"] gives the rate-limit
    error; any other non-empty message is reported as it is, and an empty
    or absent one gives the default upstream error. *)
Theorem review_upstream_failure_report :
  forall (apiKey : option string) (service : Service)
         (code language : string)
         (mode : option ReviewMode) (targetLanguage : option string)
         (style : option ImplementationStyle) (model : option string)
         (errorLog houseStyle : option string)
         (verbosity : option VerbosityLevel) (tone : option ToneStyle)
         (m : option string),
    Js.truthy_opt apiKey = true ->
    service (review_request code language mode targetLanguage style model
                            errorLog houseStyle verbosity tone)
    = Failed m ->
    exists report : string,
      reviewCode apiKey service code language mode targetLanguage style
                 model errorLog houseStyle verbosity tone
      = ([review_request code language mode targetLanguage style model
                         errorLog houseStyle verbosity tone],
         Throw (Some report))
      /\ let says sub := exists s, m = Some s /\ Text.mentions s sub in
         (says "API key" -> report = AuthError)
         /\ (~ says "API key" -> says "safety" ->
             report = SafetyBlockedError)
         /\ (~ says "API key" -> ~ says "safety" ->
             says "quota" \/ says "429" -> report = RateLimitError)
         /\ (~ says "API key" -> ~ says "safety" -> ~ says "quota" ->
             ~ says "429" ->
             report = match m with
                      | Some (String c s) => String c s
                      | _ => UpstreamError_default
                      end).
Proof.
  intros apiKey service code language mode targetLanguage style model
         errorLog houseStyle verbosity tone m K S.
  exists (classify m). split.
  - rewrite (reviewCode_with_key _ _ _ _ _ _ _ _ _ _ _ _ K). rewrite S.
    reflexivity.
  - assert (F : forall sub,
               ~ (exists s, m = Some s /\ Text.mentions s sub) ->
               includes_opt m sub = false).
    { intros sub N. apply includes_opt_false. intros s E M.
      apply N. exists s. now split. }
    cbv zeta. unfold classify. repeat split.
    + intros A. apply includes_opt_mentions in A. now rewrite A.
    + intros NA B. rewrite (F _ NA).
      apply includes_opt_mentions in B. now rewrite B.
    + intros NA NB [Q|Q]; rewrite (F _ NA), (F _ NB);
        apply includes_opt_mentions in Q; rewrite Q;
        [reflexivity | now rewrite orb_true_r].
    + intros NA NB NQ N4. rewrite (F _ NA), (F _ NB), (F _ NQ), (F _ N4).
      simpl. destruct m as [[|c s]|]; reflexivity.
Qed.

Lemma review_upstream_failure_report_witness :
  exists report : string,
    reviewCode (Some "key")
               (Scenario.failing (Some "429: quota spent for this API key"))
               "print(1)" "python" None None None None None None None None
    = ([review_request "print(1)" "python" None None None None None None
                       None None],
       Throw (Some report))
    /\ report = AuthError.
Proof.
  destruct (review_upstream_failure_report (Some "key")
              (Scenario.failing (Some "429: quota spent for this API key"))
              "print(1)" "python" None None None None None None None None
              (Some "429: quota spent for this API key")
              eq_refl eq_refl) as (report & R & A & _).
  exists report. split; [exact R|]. apply A.
  exists "429: quota spent for this API key". split; [reflexivity|].
  exists "429: quota spent for this ", "". reflexivity.
Defined.

(** X12: An absent or empty answer text ends [reviewCode] in the
    empty-response error after its one request, whatever the text of the
    code or of the other arguments: the [catch] block passes that error
    on with its message unchanged. *)
Theorem review_empty_answer_fails :
  forall (apiKey : option string) (service : Service)
         (code language : string)
         (mode : option ReviewMode) (targetLanguage : option string)
         (style : option ImplementationStyle) (model : option string)
         (errorLog houseStyle : option string)
         (verbosity : option VerbosityLevel) (tone : option ToneStyle)
         (text : option string),
    Js.truthy_opt apiKey = true ->
    service (review_request code language mode targetLanguage style model
                            errorLog houseStyle verbosity tone)
    = Responded text ->
    text = None \/ text = Some "" ->
    reviewCode apiKey service code language mode targetLanguage style model
               errorLog houseStyle verbosity tone
    = ([review_request code language mode targetLanguage style model
                       errorLog houseStyle verbosity tone],
       Throw (Some EmptyResponseError))
    /\ classify (Some EmptyResponseError) = EmptyResponseError.
Proof.
  intros apiKey service code language mode targetLanguage style model
         errorLog houseStyle verbosity tone text K S E.
  split; [|apply classify_empty].
  rewrite (reviewCode_with_key _ _ _ _ _ _ _ _ _ _ _ _ K). rewrite S.
  destruct E as [-> | ->]; simpl; now rewrite classify_empty.
Qed.

Lemma review_empty_answer_fails_witness :
  reviewCode (Some "key") (Scenario.answering (Some ""))
             "print(1)" "python" None None None None None None None None
  = ([review_request "print(1)" "python" None None None None None None
                     None None],
     Throw (Some EmptyResponseError))
  /\ classify (Some EmptyResponseError) = EmptyResponseError.
Proof.
  apply (review_empty_answer_fails (Some "key")
           (Scenario.answering (Some ""))
           "print(1)" "python" None None None None None None None None
           (Some ""));
    [ reflexivity | reflexivity | right; reflexivity ].
Defined.

(** ** [mapModel] *)

Lemma mapModel_other (model : string) :
  ~ In model (map fst model_table) -> mapModel model = model.
Proof.
  intros N. unfold mapModel.
  repeat match goal with
         | |- context [String.eqb model ?a] =>
             destruct (String.eqb_spec model a) as [E|_];
             [exfalso; apply N; subst model; simpl; tauto|]
         end.
  reflexivity.
Qed.

(** X13: The concrete name [mapModel] returns is never one of the aliases, and
    mapping it again changes nothing. *)
Theorem mapModel_idempotent :
  forall model : string,
    ~ In (mapModel model) (map fst model_table)
    /\ mapModel (mapModel model) = mapModel model.
Proof.
  assert (A : forall model, ~ In (mapModel model) (map fst model_table)).
  { intros model. unfold mapModel.
    repeat match goal with
           | |- context [String.eqb model ?a] =>
               destruct (String.eqb_spec model a);
               [simpl; intros H;
                repeat (destruct H as [H|H]; [discriminate H|]); exact H|]
           end.
    simpl. intros H.
    repeat (destruct H as [H|H]; [symmetry in H; contradiction|]).
    exact H. }
  intros model. split; [apply A|].
  apply mapModel_other, A.
Qed.

(** ** The prompt *)

(** X14: The label of the code fences follows the conversion test, although the
    template computes it by a shorter condition: it is the target language
    exactly when a conversion is asked for, and the source language
    otherwise. *)
Theorem fence_language_follows_conversion :
  forall (targetLanguage : option string) (language : string),
    fenceLanguage targetLanguage language
    = if isConversion targetLanguage language
      then interp targetLanguage
      else language.
Proof.
  intros [t|] language; [|reflexivity].
  unfold fenceLanguage, isConversion. simpl.
  destruct (Js.truthy t); simpl; [|reflexivity].
  destruct (t =? "none"); simpl; [reflexivity|].
  destruct (String.eqb_spec t language); simpl; [assumption | reflexivity].
Qed.

(** X15: The prompt of [reviewCode] carries the code as it was given, and the
    error log and the house style as they were given when they are not
    empty. *)
Theorem review_prompt_carries_inputs :
  forall (code language : string) (mode : ReviewMode)
         (targetLanguage : option string) (style : ImplementationStyle)
         (errorLog houseStyle : string) (verbosity : VerbosityLevel)
         (tone : ToneStyle),
    let prompt :=
      review_prompt code language mode targetLanguage style errorLog
                    houseStyle verbosity tone in
    Text.mentions prompt code
    /\ (errorLog <> "" ->
        Text.mentions prompt ("ERROR/BUG LOG:" ++ nl ++ errorLog ++ nl))
    /\ (houseStyle <> "" ->
        Text.mentions prompt
          ("HOUSE STYLE GUIDELINES:" ++ nl ++ houseStyle ++ nl)).
Proof.
  intros code language mode targetLanguage style errorLog houseStyle
         verbosity tone prompt.
  subst prompt. unfold review_prompt, lines.
  split; [|split].
  - apply includes_mentions, (includes_concat_nth _ _ _ 54).
    + cbn [List.length review_prompt_lines]. lia.
    + cbn [nth review_prompt_lines]. apply includes_mentions.
      exists "      ", "". now rewrite string_app_nil.
  - intros N. apply includes_mentions, (includes_concat_nth _ _ _ 10).
    + cbn [List.length review_prompt_lines]. lia.
    + cbn [nth review_prompt_lines]. apply truthy_true_iff in N.
      rewrite N. apply includes_mentions.
      exists "      ", "". now rewrite string_app_nil.
  - intros N. apply includes_mentions, (includes_concat_nth _ _ _ 11).
    + cbn [List.length review_prompt_lines]. lia.
    + cbn [nth review_prompt_lines]. apply truthy_true_iff in N.
      rewrite N. apply includes_mentions.
      exists "      ", "". now rewrite string_app_nil.
Qed.

(** ** [chatWithCode] *)

(** [chatWithCode] does not classify: when the call to the service fails,
    the error reaches the caller with the message it had, even an absent
    one, after the one request. *)
Lemma chat_failure_is_passed_on :
  forall (apiKey : option string) (service : Service)
         (code question : string) (history : option (list Content))
         (model errorLog : option string) (m : option string),
    Js.truthy_opt apiKey = true ->
    service (chat_request code question history model errorLog)
    = Failed m ->
    chatWithCode apiKey service code question history model errorLog
    = ([chat_request code question history model errorLog], Throw m).
Proof.
  intros apiKey service code question history model errorLog m K S.
  unfold chatWithCode. rewrite K, S. reflexivity.
Qed.

Lemma chat_failure_is_passed_on_witness :
  chatWithCode (Some "key") (Scenario.failing (Some "bad API key"))
               "print(1)" "What does it do?" None None None
  = ([chat_request "print(1)" "What does it do?" None None None],
     Throw (Some "bad API key")).
Proof.
  apply (chat_failure_is_passed_on (Some "key")
           (Scenario.failing (Some "bad API key"))
           "print(1)" "What does it do?" None None None
           (Some "bad API key")); reflexivity.
Defined.

End GeminiMore.

(* ================================================================== *)
(** * Properties of the handlers *)

Section AppFacts.

Import Gemini App.
Local Open Scope string_scope.
Local Open Scope list_scope.

(** ** [handleSendMessage] *)

Lemma send_blank_or_busy_noop
  (apiKey : option string) (service : Service)
  (code model errorLog : string) (st : ChatState) :
  Text.trim (chatInput st) = "" \/ isChatLoading st = true ->
  handleSendMessage apiKey service code model errorLog st = ([], st).
Proof.
  intros H. unfold handleSendMessage. destruct H as [H|H]; rewrite H.
  - reflexivity.
  - now rewrite orb_true_r.
Qed.

(** X16: With a blank input, or while an answer is awaited, sending does
    nothing: no request is issued and the chat state stays as it was. *)
Theorem send_blank_or_busy_does_nothing :
  forall (apiKey : option string) (service : Service)
         (code model errorLog : string) (st : ChatState),
    Text.trim (chatInput st) = "" \/ isChatLoading st = true ->
    handleSendMessage apiKey service code model errorLog st = ([], st).
Proof.
  intros apiKey service code model errorLog st H.
  now apply send_blank_or_busy_noop.
Qed.

Lemma send_blank_or_busy_does_nothing_witness :
  handleSendMessage (Some "key") (Scenario.answering (Some "Hello."))
                    "print(1)" "gpt-5" ""
                    (mkChatState [] "  " false)
  = ([], mkChatState [] "  " false).
Proof.
  apply (send_blank_or_busy_does_nothing (Some "key")
           (Scenario.answering (Some "Hello.")) "print(1)" "gpt-5" ""
           (mkChatState [] "  " false)).
  left. reflexivity.
Defined.

Lemma send_unfold (apiKey : option string) (service : Service)
  (code model errorLog : string) (st : ChatState) :
  Text.trim (chatInput st) <> "" -> isChatLoading st = false ->
  handleSendMessage apiKey service code model errorLog st
  = (fst (chatWithCode apiKey service code (Text.trim (chatInput st))
            (Some (to_history (chatMessages st))) (Some model)
            (Some errorLog)),
     mkChatState
       (chatMessages st
        ++ [mkMessage user (Text.trim (chatInput st));
            mkMessage model_role
              match snd (chatWithCode apiKey service code
                           (Text.trim (chatInput st))
                           (Some (to_history (chatMessages st)))
                           (Some model) (Some errorLog)) with
              | Return response => response
              | Throw _ => chat_error_text
              end])
       "" false).
Proof.
  intros N L. unfold handleSendMessage.
  apply truthy_true_iff in N. rewrite N, L. reflexivity.
Qed.

(** X17: A question that is sent goes out trimmed, in one request that carries
    the whole transcript so far, turn by turn in order and each text as it
    is, under the mapped model; when the service answers, the transcript
    grows by the trimmed question and the answer (the fallback string when
    the answer text is absent or empty), and the input is cleared. *)
Theorem send_carries_transcript :
  forall (apiKey : option string) (service : Service)
         (code model errorLog : string) (st : ChatState)
         (answer : option string),
    Text.trim (chatInput st) <> "" -> isChatLoading st = false ->
    Js.truthy_opt apiKey = true ->
    let question := Text.trim (chatInput st) in
    let request :=
      SendMessage
        (mkChat (mapModel model) (chat_instruction code errorLog)
                (map (fun m => mkContent (App.role m) [text m])
                     (chatMessages st)))
        question in
    service request = Responded answer ->
    handleSendMessage apiKey service code model errorLog st
    = ([request],
       mkChatState
         (chatMessages st
          ++ [mkMessage user question;
              mkMessage model_role (Js.or_default answer chat_fallback)])
         "" false).
Proof.
  intros apiKey service code model errorLog st answer N L K question
         request S.
  rewrite send_unfold by assumption.
  unfold chatWithCode. rewrite K. simpl.
  change (chat_request code (Text.trim (chatInput st))
            (Some (to_history (chatMessages st))) (Some model)
            (Some errorLog)) with request.
  rewrite S. reflexivity.
Qed.

Lemma send_carries_transcript_witness :
  let before :=
    [mkMessage user "What does it do?"; mkMessage model_role "It prints 1."]
  in
  handleSendMessage (Some "key") (Scenario.answering (Some "Because."))
                    "print(1)" "gpt-5" ""
                    (mkChatState before " Why? " false)
  = ([SendMessage
        (mkChat (mapModel "gpt-5") (chat_instruction "print(1)" "")
                (map (fun m => mkContent (App.role m) [text m]) before))
        "Why?"],
     mkChatState
       (before
        ++ [mkMessage user "Why?";
            mkMessage model_role
              (Js.or_default (Some "Because.") chat_fallback)])
       "" false).
Proof.
  apply (send_carries_transcript (Some "key")
           (Scenario.answering (Some "Because.")) "print(1)" "gpt-5" ""
           (mkChatState
              [mkMessage user "What does it do?";
               mkMessage model_role "It prints 1."] " Why? " false)
           (Some "Because."));
    [ vm_compute; discriminate | reflexivity | reflexivity | reflexivity ].
Defined.

(** X18: Without a credential no request is issued; the question and the fixed
    error text are added to the transcript all the same. *)
Theorem send_without_credential :
  forall (apiKey : option string) (service : Service)
         (code model errorLog : string) (st : ChatState),
    Text.trim (chatInput st) <> "" -> isChatLoading st = false ->
    Js.truthy_opt apiKey = false ->
    handleSendMessage apiKey service code model errorLog st
    = ([],
       mkChatState
         (chatMessages st
          ++ [mkMessage user (Text.trim (chatInput st));
              mkMessage model_role chat_error_text])
         "" false).
Proof.
  intros apiKey service code model errorLog st N L K.
  rewrite send_unfold by assumption. unfold chatWithCode. rewrite K.
  reflexivity.
Qed.

Lemma send_without_credential_witness :
  handleSendMessage None (Scenario.answering (Some "It prints 1."))
                    "print(1)" "gpt-5" ""
                    (mkChatState [] "What does it do?" false)
  = ([],
     mkChatState
       ([] ++ [mkMessage user (Text.trim "What does it do?");
               mkMessage model_role chat_error_text])
       "" false).
Proof.
  apply (send_without_credential None
           (Scenario.answering (Some "It prints 1.")) "print(1)" "gpt-5" ""
           (mkChatState [] "What does it do?" false));
    [ vm_compute; discriminate | reflexivity | reflexivity ].
Defined.

(** X19: When the call to the service throws, the fixed error text is added to
    the transcript as a model turn after the question; the next question
    that is sent then carries that error text to the service as a turn of
    the conversation. *)
Theorem send_failure_enters_transcript :
  forall (apiKey : option string) (service service2 : Service)
         (code model errorLog : string) (st : ChatState) (next : string)
         (m : option string),
    Text.trim (chatInput st) <> "" -> isChatLoading st = false ->
    Js.truthy_opt apiKey = true ->
    service (chat_request code (Text.trim (chatInput st))
               (Some (to_history (chatMessages st))) (Some model)
               (Some errorLog)) = Failed m ->
    Text.trim next <> "" ->
    let st1 := snd (handleSendMessage apiKey service code model errorLog st)
    in
    chatMessages st1
    = chatMessages st
      ++ [mkMessage user (Text.trim (chatInput st));
          mkMessage model_role chat_error_text]
    /\ fst (handleSendMessage apiKey service2 code model errorLog
              (mkChatState (chatMessages st1) next false))
       = [SendMessage
            (mkChat (mapModel model) (chat_instruction code errorLog)
                    (to_history (chatMessages st)
                     ++ [mkContent user [Text.trim (chatInput st)];
                         mkContent model_role [chat_error_text]]))
            (Text.trim next)].
Proof.
  intros apiKey service service2 code model errorLog st next m
         N L K F N' st1.
  assert (E : chatMessages st1
              = chatMessages st
                ++ [mkMessage user (Text.trim (chatInput st));
                    mkMessage model_role chat_error_text]).
  { subst st1. rewrite send_unfold by assumption. simpl. f_equal. f_equal.
    f_equal. unfold chatWithCode. rewrite K. simpl. now rewrite F. }
  split; [exact E|].
  rewrite send_unfold by (simpl; assumption || reflexivity). simpl.
  unfold chatWithCode. rewrite K. simpl. rewrite E.
  unfold chat_request, to_history. rewrite map_app. reflexivity.
Qed.

Lemma send_failure_enters_transcript_witness :
  let st := mkChatState [] "What does it do?" false in
  let st1 :=
    snd (handleSendMessage (Some "key") (Scenario.failing (Some "down"))
                           "print(1)" "gpt-5" "" st) in
  chatMessages st1
  = chatMessages st
    ++ [mkMessage user (Text.trim (chatInput st));
        mkMessage model_role chat_error_text]
  /\ fst (handleSendMessage (Some "key")
            (Scenario.answering (Some "It prints 1."))
            "print(1)" "gpt-5" ""
            (mkChatState (chatMessages st1) "Again?" false))
     = [SendMessage
          (mkChat (mapModel "gpt-5") (chat_instruction "print(1)" "")
                  (to_history (chatMessages st)
                   ++ [mkContent user [Text.trim (chatInput st)];
                       mkContent model_role [chat_error_text]]))
          (Text.trim "Again?")].
Proof.
  apply (send_failure_enters_transcript (Some "key")
           (Scenario.failing (Some "down"))
           (Scenario.answering (Some "It prints 1."))
           "print(1)" "gpt-5" ""
           (mkChatState [] "What does it do?" false) "Again?"
           (Some "down"));
    [ vm_compute; discriminate | reflexivity | reflexivity | reflexivity
    | vm_compute; discriminate ].
Defined.

(** X20: A transcript made of exchanges (a user turn, then a model turn) stays
    so, and no earlier turn is changed: sending adds one exchange or
    nothing. *)
Theorem send_keeps_exchanges :
  forall (apiKey : option string) (service : Service)
         (code model errorLog : string) (st : ChatState),
    exchanges (chatMessages st) ->
    let st' := snd (handleSendMessage apiKey service code model errorLog st)
    in
    exchanges (chatMessages st')
    /\ (st' = st
        \/ exists q a : ChatMessage,
             chatMessages st' = chatMessages st ++ [q; a]
             /\ App.role q = user /\ App.role a = model_role
             /\ text q = Text.trim (chatInput st) /\ text q <> "").
Proof.
  intros apiKey service code model errorLog st X st'.
  assert (A : forall ms q a,
             exchanges ms -> App.role q = user -> App.role a = model_role ->
             exchanges (ms ++ [q; a])).
  { intros ms q a. revert ms.
    fix IH 1. intros [|x [|y rest]] H Hq Ha; simpl in *.
    - auto.
    - contradiction.
    - destruct H as (Hx & Hy & Hr). repeat split; try assumption.
      now apply IH. }
  destruct (String.eqb_spec (Text.trim (chatInput st)) "") as [B|B].
  { subst st'. rewrite send_blank_or_busy_noop by (now left).
    split; [exact X | now left]. }
  destruct (isChatLoading st) eqn:L.
  { subst st'. rewrite send_blank_or_busy_noop by (now right).
    split; [exact X | now left]. }
  subst st'. rewrite send_unfold by assumption. simpl. split.
  - now apply A.
  - right. eexists. eexists. split; [reflexivity|]. now repeat split.
Qed.

Lemma send_keeps_exchanges_witness :
  let st := mkChatState [] "What does it do?" false in
  let st' :=
    snd (handleSendMessage (Some "key")
           (Scenario.answering (Some "It prints 1.")) "print(1)" "gpt-5" ""
           st) in
  exchanges (chatMessages st')
  /\ (st' = st
      \/ exists q a : ChatMessage,
           chatMessages st' = chatMessages st ++ [q; a]
           /\ App.role q = user /\ App.role a = model_role
           /\ text q = Text.trim (chatInput st) /\ text q <> "").
Proof.
  apply (send_keeps_exchanges (Some "key")
           (Scenario.answering (Some "It prints 1.")) "print(1)" "gpt-5" ""
           (mkChatState [] "What does it do?" false)).
  exact I.
Defined.

(** ** [handleReview] *)

(** X21: With blank code the review does nothing: no request to the service,
    no request to the history route, and the view stays as it was. *)
Theorem review_of_blank_code_does_nothing :
  forall (apiKey : option string) (service : Service) (delivered : bool)
         (now code language targetLanguage : string) (mode : ReviewMode)
         (style : ImplementationStyle) (model errorLog houseStyle : string)
         (verbosity : VerbosityLevel) (tone : ToneStyle)
         (view : ReviewView) (st : History.Store),
    Text.trim code = "" ->
    handleReview apiKey service delivered now code language targetLanguage
                 mode style model errorLog houseStyle verbosity tone view st
    = Some ([], view, st).
Proof.
  intros. unfold handleReview. rewrite H. reflexivity.
Qed.

Lemma review_of_blank_code_does_nothing_witness :
  handleReview (Some "key")
               (Scenario.answering (Some Scenario.payload_complete))
               true Scenario.t0 "  " "auto" "none" industry default
               "gpt-5" "" "" normal professional
               (mkView None None issues) History.empty
  = Some ([], mkView None None issues, History.empty).
Proof.
  apply (review_of_blank_code_does_nothing (Some "key")
           (Scenario.answering (Some Scenario.payload_complete))
           true Scenario.t0 "  " "auto" "none" industry default
           "gpt-5" "" "" normal professional
           (mkView None None issues) History.empty).
  reflexivity.
Defined.

(** X22: A review that fails writes nothing to the history: the store stays as
    it was, the earlier result stays on view, and the message of the
    error, which is not empty, is shown. *)
Theorem failed_review_records_nothing :
  forall (apiKey : option string) (service : Service) (delivered : bool)
         (now code language targetLanguage : string) (mode : ReviewMode)
         (style : ImplementationStyle) (model errorLog houseStyle : string)
         (verbosity : VerbosityLevel) (tone : ToneStyle)
         (view : ReviewView) (st : History.Store) (m : option string),
    Text.trim code <> "" ->
    snd (reviewCode apiKey service code language (Some mode)
                    (Some targetLanguage) (Some style) (Some model)
                    (Some errorLog) (Some houseStyle) (Some verbosity)
                    (Some tone))
    = Throw m ->
    exists (trace : list Request) (shown : string),
      handleReview apiKey service delivered now code language
                   targetLanguage mode style model errorLog houseStyle
                   verbosity tone view st
      = Some (trace,
              mkView (result view) (Some shown) (activeTab view), st)
      /\ m = Some shown /\ shown <> "" /\ (List.length trace <= 1)%nat.
Proof.
  intros apiKey service delivered now code language targetLanguage mode
         style model errorLog houseStyle verbosity tone view st m N T.
  destruct (reviewCode_throws_nonempty _ _ _ _ _ _ _ _ _ _ _ _ _ T)
    as (shown & -> & Ns).
  eexists. exists shown. unfold handleReview.
  apply truthy_true_iff in N. rewrite N. simpl negb. cbv iota.
  rewrite T. split; [reflexivity|]. split; [reflexivity|].
  split; [exact Ns|].
  unfold reviewCode. destruct (Js.truthy_opt apiKey); simpl; lia.
Qed.

Lemma failed_review_records_nothing_witness :
  exists (trace : list Request) (shown : string),
    handleReview (Some "key") (Scenario.answering (Some "Sorry."))
                 true Scenario.t0 "print(1)" "auto" "none" industry default
                 "gpt-5" "" "" normal professional
                 (mkView None None issues) History.empty
    = Some (trace, mkView None (Some shown) issues, History.empty)
    /\ Some MalformedResponseError = Some shown /\ shown <> ""
    /\ (List.length trace <= 1)%nat.
Proof.
  apply (failed_review_records_nothing (Some "key")
           (Scenario.answering (Some "Sorry."))
           true Scenario.t0 "print(1)" "auto" "none" industry default
           "gpt-5" "" "" normal professional
           (mkView None None issues) History.empty
           (Some MalformedResponseError));
    [ vm_compute; discriminate | vm_compute; reflexivity ].
Defined.

Lemma post_same_body_twice now1 now2 body st :
  History.rows
    (snd (History.post_history now2 body
            (snd (History.post_history now1 body st))))
  = History.rows (snd (History.post_history now1 body st)).
Proof.
  apply post_stored_or_rejected. intros o i Ho Hi No Ni.
  now apply post_stores_hash.
Qed.

(** X23: Running the same review again, with the same answer from the service,
    writes no row, whenever the first save reached the route: the pair is
    stored once, and the history holds exactly the rows that the first run
    left. *)
Theorem repeated_review_records_once :
  forall (apiKey : option string) (service : Service) (delivered2 : bool)
         (now1 now2 code language targetLanguage : string)
         (mode : ReviewMode) (style : ImplementationStyle)
         (model errorLog houseStyle : string)
         (verbosity : VerbosityLevel) (tone : ToneStyle)
         (view view1 : ReviewView) (st st1 : History.Store)
         (trace : list Request),
    handleReview apiKey service true now1 code language targetLanguage
                 mode style model errorLog houseStyle verbosity tone view st
    = Some (trace, view1, st1) ->
    exists (view2 : ReviewView) (st2 : History.Store),
      handleReview apiKey service delivered2 now2 code language
                   targetLanguage mode style model errorLog houseStyle
                   verbosity tone view1 st1
      = Some (trace, view2, st2)
      /\ History.rows st2 = History.rows st1.
Proof.
  intros apiKey service delivered2 now1 now2 code language targetLanguage
         mode style model errorLog houseStyle verbosity tone view view1
         st st1 trace H.
  unfold handleReview in *.
  destruct (negb (Js.truthy (Text.trim code))).
  { inversion H; subst. eexists. eexists. split; reflexivity. }
  destruct (snd (reviewCode _ _ _ _ _ _ _ _ _ _ _ _)) as [res|m].
  - destruct (history_body code language res) as [[body|]|];
      [| |discriminate H].
    + inversion H; subst. eexists. eexists. split; [reflexivity|].
      destruct delivered2; [apply post_same_body_twice | reflexivity].
    + inversion H; subst. eexists. eexists. split; reflexivity.
  - inversion H; subst. eexists. eexists. split; reflexivity.
Qed.

Lemma repeated_review_records_once_witness :
  exists (view2 : ReviewView) (st2 : History.Store),
    handleReview (Some "key")
                 (Scenario.answering (Some Scenario.payload_complete))
                 true Scenario.t1 "print(1)" "auto" "none" industry default
                 "gpt-5" "" "" normal professional
                 (mkView (Some Samples.value_complete) None issues)
                 Samples.store_after_review
    = Some ([Samples.review_request_sent], view2, st2)
    /\ History.rows st2 = History.rows Samples.store_after_review.
Proof.
  apply (repeated_review_records_once (Some "key")
           (Scenario.answering (Some Scenario.payload_complete))
           true Scenario.t0 Scenario.t1 "print(1)" "auto" "none" industry
           default "gpt-5" "" "" normal professional
           (mkView None None issues)
           (mkView (Some Samples.value_complete) None issues)
           History.empty Samples.store_after_review
           [Samples.review_request_sent]).
  vm_compute. reflexivity.
Defined.


(** An escape for a surrogate without its partner gives a string that is
    not well formed, and a result whose optimized code holds one is not
    followed to the history route; a pair of escapes gives the four bytes
    of one code point. *)
Example surrogate_escapes :
  (exists s : string,
      Json.parse (Scenario.quoted "\ud800") = Some (Json.JString s)
      /\ Js.isWellFormed s = false
      /\ history_body "print(1)" "python"
           (Json.JObject [("optimizedCode", Json.JString s)])
         = None)
  /\ (exists s : string,
         Json.parse (Scenario.quoted "\ud83d\ude00")
         = Some (Json.JString s)
         /\ Js.isWellFormed s = true /\ String.length s = 4).
Proof.
  split; eexists; (split; [vm_compute; reflexivity|]);
    split; vm_compute; reflexivity.
Qed.




End AppFacts.

(* ================================================================== *)
(** * Properties of [vibeCode] *)

Section VibeFacts.

Import Gemini Vibe.
Local Open Scope list_scope.
Local Open Scope string_scope.

Lemma mentions_refl (s : string) : Text.mentions s s.
Proof. exists "", "". simpl. now rewrite string_app_nil. Qed.

Lemma mentions_app_l (p s x : string) :
  Text.mentions s x -> Text.mentions (p ++ s) x.
Proof.
  intros (a & b & ->). exists (p ++ a), b. now rewrite string_app_assoc.
Qed.

Lemma mentions_concat (sep x : string) (l : list string) :
  In x l -> Text.mentions (String.concat sep l) x.
Proof.
  intros H. destruct (In_nth l x "" H) as (n & L & E).
  apply includes_mentions, (includes_concat_nth _ _ _ n L).
  rewrite E. apply includes_mentions, mentions_refl.
Qed.

(** X25: The prompt of [vibeCode] carries the intent and, for every file of
    the workspace, its block: the name, and the content as it is between
    code fences. *)
Theorem vibe_prompt_carries_every_file :
  forall (intent : string) (files : list File),
    Text.mentions (vibe_prompt intent files) (dq ++ intent ++ dq)
    /\ forall f : File,
         In f files ->
         Text.mentions (vibe_prompt intent files)
           ("--- FILE: " ++ name f ++ " ---" ++ nl ++ "```" ++ nl
            ++ content f ++ nl ++ "```").
Proof.
  intros intent files. unfold vibe_prompt, lines. split.
  - apply includes_mentions, (includes_concat_nth _ _ _ 3).
    + cbn [List.length vibe_prompt_lines]. lia.
    + cbn [nth vibe_prompt_lines]. apply includes_mentions.
      apply (mentions_app_l "      USER INTENT: "), mentions_refl.
  - intros f H. apply includes_mentions, (includes_concat_nth _ _ _ 6).
    + cbn [List.length vibe_prompt_lines]. lia.
    + cbn [nth vibe_prompt_lines]. apply includes_mentions.
      apply mentions_app_l. unfold filesContext.
      apply mentions_concat. change (In (fileBlock f) (map fileBlock files)).
      now apply in_map.
Qed.

(** X26: [vibeCode] reports a failure without classifying it: an error of the
    call to the service is thrown on with its own message, whatever it
    mentions, and with the default message when it has none; an absent or
    empty answer gives the empty-response message; an answer that is JSON
    text is returned as parsed, whatever its shape. *)
Theorem vibe_reports_unclassified :
  forall (apiKey : option string) (service : Service)
         (parseMessage : string -> string)
         (intent : string) (files : list File) (model : option string),
    Js.truthy_opt apiKey = true ->
    let request := vibe_request intent files model in
    let run := vibeCode apiKey service parseMessage intent files model in
    (forall m : option string,
        service request = Failed m ->
        run = ([request],
               Throw (Some match m with
                           | Some (String c s) => String c s
                           | _ => vibe_default_error
                           end)))
    /\ (forall text : option string,
           service request = Responded text ->
           Js.truthy_opt text = false ->
           run = ([request], Throw (Some vibe_empty_response)))
    /\ (forall (t : string) (v : Json.value),
           service request = Responded (Some t) ->
           Json.parse t = Some v ->
           run = ([request], Return v)).
Proof.
  intros apiKey service parseMessage intent files model K request run.
  subst run. unfold vibeCode. rewrite K. simpl negb. cbv iota.
  fold request. split; [|split].
  - intros m S. rewrite S. simpl. destruct m as [[|c s]|]; reflexivity.
  - intros text S E. rewrite S. destruct text as [t|]; simpl in *.
    + rewrite E. reflexivity.
    + reflexivity.
  - intros t v S P. rewrite S. simpl.
    destruct (Js.truthy t) eqn:T; simpl.
    + now rewrite P.
    + apply truthy_false_iff in T. subst t. discriminate P.
Qed.

Lemma vibe_reports_unclassified_witness :
  vibeCode (Some "key") (Scenario.failing (Some "bad API key"))
           (fun _ => "Unexpected token") "Rename f to g"
           [mkFile "main.js" "function f(){}"] None
  = ([vibe_request "Rename f to g" [mkFile "main.js" "function f(){}"]
                   None],
     Throw (Some "bad API key")).
Proof.
  pose proof (vibe_reports_unclassified (Some "key")
                (Scenario.failing (Some "bad API key"))
                (fun _ => "Unexpected token") "Rename f to g"
                [mkFile "main.js" "function f(){}"] None eq_refl) as H.
  cbv zeta in H. destruct H as [F _].
  apply (F (Some "bad API key")). reflexivity.
Defined.

End VibeFacts.

(* ================================================================== *)
(** * Properties of the workspace files *)

Section WorkspaceFacts.

Import Workspace.
Local Open Scope string_scope.
Local Open Scope list_scope.

Lemma set_content_length i c l :
  List.length (set_content i c l) = List.length l.
Proof.
  revert i. induction l as [|f l IH]; intros [|i]; simpl; auto.
Qed.

Lemma remove_at_length i l :
  List.length (remove_at i l)
  = if (i <? List.length l)%nat then List.length l - 1 else List.length l.
Proof.
  revert i. induction l as [|f l IH]; intros [|i]; simpl; try lia.
  rewrite IH. change (S i <? S (List.length l))%nat
    with (i <? List.length l)%nat.
  destruct (Nat.ltb_spec i (List.length l)); lia.
Qed.

Lemma remove_at_nth i l j :
  nth_error (remove_at i l) j
  = if (j <? i)%nat then nth_error l j else nth_error l (S j).
Proof.
  revert i j. induction l as [|f l IH]; intros i j.
  - destruct i, j; simpl; try reflexivity;
      destruct (_ <? _)%nat; reflexivity.
  - destruct i as [|i], j as [|j]; try reflexivity.
    change (nth_error (remove_at i l) j
            = if (j <? i)%nat
              then nth_error l j else nth_error l (S j)).
    apply IH.
Qed.

Lemma set_content_nth i c l j :
  nth_error (set_content i c l) j
  = if (j =? i)%nat
    then option_map (fun f => mkFile (name f) c) (nth_error l j)
    else nth_error l j.
Proof.
  revert i j. induction l as [|f l IH]; intros [|i] [|j]; simpl;
    try reflexivity.
  - now destruct (_ =? _)%nat.
  - apply IH.
Qed.

Lemma set_content_names i c l :
  map name (set_content i c l) = map name l.
Proof.
  revert i. induction l as [|f l IH]; intros [|i]; simpl;
    try rewrite IH; reflexivity.
Qed.

(** X27: While the active index names a file, it keeps naming one: whatever
    file is added or removed and whatever is typed, and the last file is
    never removed. *)
Theorem workspace_stays_well_formed :
  forall st : State,
    well_formed st ->
    well_formed (addFile st)
    /\ (forall index : nat,
           well_formed (removeFile index st)
           /\ (1 <= List.length (files (removeFile index st)))%nat)
    /\ (forall c : string,
           exists st' : State, setCode c st = Some st' /\ well_formed st').
Proof.
  intros st W. unfold well_formed in *. split; [|split].
  - unfold addFile. simpl. rewrite length_app. simpl. lia.
  - intros index. unfold removeFile.
    destruct (Nat.leb_spec (List.length (files st)) 1); [lia|].
    simpl. rewrite remove_at_length.
    destruct (Nat.ltb_spec index (List.length (files st)));
      match goal with |- context [(?a <=? ?b)%nat] =>
        destruct (Nat.leb_spec a b) end; lia.
  - intros c. unfold setCode.
    destruct (nth_error (files st) (activeFileIndex st)) eqn:E.
    + eexists. split; [reflexivity|]. simpl.
      now rewrite set_content_length.
    + apply nth_error_None in E. lia.
Qed.

Lemma workspace_stays_well_formed_witness :
  well_formed
    (addFile (mkState [mkFile "main.js" "x"; mkFile "utils.js" "y"] 0))
  /\ (forall index : nat,
         well_formed
           (removeFile index
              (mkState [mkFile "main.js" "x"; mkFile "utils.js" "y"] 0))
         /\ (1 <= List.length
                    (files (removeFile index
                              (mkState [mkFile "main.js" "x";
                                        mkFile "utils.js" "y"] 0))))%nat)
  /\ (forall c : string,
         exists st' : State,
           setCode c (mkState [mkFile "main.js" "x"; mkFile "utils.js" "y"]
                              0) = Some st'
           /\ well_formed st').
Proof.
  apply (workspace_stays_well_formed
           (mkState [mkFile "main.js" "x"; mkFile "utils.js" "y"] 0)).
  unfold well_formed. simpl. lia.
Defined.

(** X28: What is typed is what the editor then holds: [setCode] sets the
    content of the active file and nothing else, no name and no other
    file's content. *)
Theorem typed_code_is_read_back :
  forall (st : State) (c : string),
    well_formed st ->
    exists st' : State,
      setCode c st = Some st'
      /\ code st' = c
      /\ activeFileIndex st' = activeFileIndex st
      /\ map name (files st') = map name (files st)
      /\ forall j : nat,
           j <> activeFileIndex st ->
           nth_error (files st') j = nth_error (files st) j.
Proof.
  intros st c W. unfold well_formed in W. unfold setCode.
  destruct (nth_error (files st) (activeFileIndex st)) as [f|] eqn:E.
  2:{ apply nth_error_None in E. lia. }
  eexists. split; [reflexivity|]. split; [|split; [reflexivity|split]].
  - unfold code. simpl. rewrite set_content_nth, Nat.eqb_refl, E.
    reflexivity.
  - simpl. apply set_content_names.
  - intros j N. simpl. rewrite set_content_nth.
    apply Nat.eqb_neq in N. now rewrite N.
Qed.

Lemma typed_code_is_read_back_witness :
  exists st' : State,
    setCode "print(1)"
            (mkState [mkFile "main.js" "x"; mkFile "utils.js" "y"] 1)
    = Some st'
    /\ code st' = "print(1)"
    /\ activeFileIndex st' = 1
    /\ map name (files st') = ["main.js"; "utils.js"]
    /\ forall j : nat,
         j <> 1 ->
         nth_error (files st') j
         = nth_error [mkFile "main.js" "x"; mkFile "utils.js" "y"] j.
Proof.
  apply (typed_code_is_read_back
           (mkState [mkFile "main.js" "x"; mkFile "utils.js" "y"] 1)
           "print(1)").
  unfold well_formed. simpl. lia.
Defined.

(** X29: Removing a file at or before the active one, when the active one is
    not the last, leaves the index as it is, so that the file after the
    active one becomes the active file, also when the file removed was
    another one. *)
Theorem removing_earlier_file_shifts_active :
  forall (st : State) (index : nat),
    (index <= activeFileIndex st)%nat ->
    (S (activeFileIndex st) < List.length (files st))%nat ->
    activeFileIndex (removeFile index st) = activeFileIndex st
    /\ nth_error (files (removeFile index st))
                 (activeFileIndex (removeFile index st))
       = nth_error (files st) (S (activeFileIndex st)).
Proof.
  intros st index I L. unfold removeFile.
  destruct (Nat.leb_spec (List.length (files st)) 1); [lia|].
  simpl. rewrite remove_at_length.
  destruct (Nat.ltb_spec index (List.length (files st))); [|lia].
  destruct (Nat.leb_spec (List.length (files st) - 1) (activeFileIndex st));
    [lia|].
  split; [reflexivity|]. rewrite remove_at_nth.
  destruct (Nat.ltb_spec (activeFileIndex st) index); [lia | reflexivity].
Qed.

Lemma removing_earlier_file_shifts_active_witness :
  let st :=
    mkState [mkFile "a.js" "1"; mkFile "b.js" "2"; mkFile "c.js" "3"] 1 in
  activeFileIndex (removeFile 0 st) = activeFileIndex st
  /\ nth_error (files (removeFile 0 st))
               (activeFileIndex (removeFile 0 st))
     = nth_error (files st) (S (activeFileIndex st)).
Proof.
  apply (removing_earlier_file_shifts_active
           (mkState [mkFile "a.js" "1"; mkFile "b.js" "2";
                     mkFile "c.js" "3"] 1) 0);
    simpl; lia.
Defined.

(** X30: A file that was just added is active and empty, so a review asked for
    then does nothing: no request to the service and none to the
    history. *)
Theorem review_after_adding_file_does_nothing :
  forall (st : State) (apiKey : option string) (service : Gemini.Service)
         (delivered : bool) (now language targetLanguage : string)
         (mode : Gemini.ReviewMode) (style : Gemini.ImplementationStyle)
         (model errorLog houseStyle : string)
         (verbosity : Gemini.VerbosityLevel) (tone : Gemini.ToneStyle)
         (view : App.ReviewView) (store : History.Store),
    code (addFile st) = ""
    /\ List.length (files (addFile st)) = S (List.length (files st))
    /\ App.handleReview apiKey service delivered now (code (addFile st))
         language targetLanguage mode style model errorLog houseStyle
         verbosity tone view store
       = Some ([], view, store).
Proof.
  intros. assert (E : code (addFile st) = "").
  { unfold code, addFile. simpl.
    rewrite nth_error_app2 by lia. rewrite Nat.sub_diag. reflexivity. }
  split; [exact E|]. split.
  - unfold addFile. simpl. rewrite length_app. simpl. lia.
  - rewrite E. reflexivity.
Qed.

End WorkspaceFacts.
